(** * Request handlers of the user registry and the hospital service

    A shallow embedding of [src/main.go] (the user registry: [createUser],
    [getUsers]) and of the hospital-management service ([createPatient],
    [getPatients], [createDoctor], [createAppointment],
    [validateAppointment], [createDepartment]).

    The handlers are translated statement by statement.  What they call
    but do not define is modelled next to them:

    - the MongoDB driver ([InsertOne], [FindOne], [Find], [Cursor_All]) as
      operations of a state monad over a [World] that holds the
      collections, the outcome of the coming round trips to the server,
      the wall clock and the driver's ObjectID generator, together with
      the history of driver calls;
    - [encoding/json] on the way in as the outcome of [Decode] on the
      request body (an error or the decoded struct), and on the way out
      as a JSON value. *)

From stdpp Require Import base option list strings.
From Stdlib Require Import ZArith NArith Ascii.

Open Scope string_scope.
Open Scope list_scope.

(** ** Go values *)

(** [primitive.ObjectID] is [[12]byte]; the twelve bytes are read as one
    big-endian number.  [NilObjectID] is the zero value. *)
Definition ObjectID := N.
Bind Scope N_scope with ObjectID.
Definition NilObjectID : ObjectID := 0%N.
Definition ObjectID_IsZero (id : ObjectID) : bool := N.eqb id NilObjectID.

(** [time.Time] as nanoseconds since the Unix epoch; the zero value of the
    model is [0]. *)
Definition Time := Z.
Bind Scope Z_scope with Time.

(** Go's [error]: a value with an [Error()] message. *)
Inductive error :=
| ErrNoDocuments                      (* mongo.ErrNoDocuments *)
| DuplicateKey (index : string)       (* write exception E11000 *)
| Unavailable (msg : string)          (* deadline exceeded, no reachable server *)
| DecodeError (msg : string)          (* encoding/json and bson decoding *)
| Errorf (msg : string).              (* fmt.Errorf *)

Definition Error (e : error) : string :=
  match e with
  | ErrNoDocuments => "mongo: no documents in result"
  | DuplicateKey index => "E11000 duplicate key error index: " ++ index
  | Unavailable msg => msg
  | DecodeError msg => msg
  | Errorf msg => msg
  end.

(** A Go slice is [nil] or a (possibly empty) sequence. *)
Inductive slice (A : Type) :=
| nil_slice
| Slice (elts : list A).
Arguments nil_slice {A}.
Arguments Slice {A} elts.

(** ** BSON documents *)

Inductive value :=
| VString (s : string)
| VInt (n : Z)
| VObjectID (id : ObjectID)
| VDateTime (ms : Z).                 (* milliseconds since the epoch *)

#[global] Instance value_eq_dec : EqDecision value.
Proof. solve_decision. Defined.

Definition document := list (string * value).

Fixpoint Lookup (key : string) (d : document) : option value :=
  match d with
  | [] => None
  | (k, v) :: rest => if String.eqb k key then Some v else Lookup key rest
  end.

(** [primitive.NewDateTimeFromTime]: BSON keeps milliseconds. *)
Definition NewDateTimeFromTime (t : Time) : Z := (t / 1000000)%Z.
Definition DateTime_Time (ms : Z) : Time := (ms * 1000000)%Z.

(** ** JSON values written to the response *)

#[local] Unset Elimination Schemes.
Inductive json :=
| JNull
| JString (s : string)
| JNumber (n : Z)
| JObjectID (id : ObjectID)           (* the 24 hexadecimal digits, quoted *)
| JTime (t : Time)                    (* the RFC 3339 text, quoted *)
| JArray (elts : list json)
| JObject (members : list (string * json)).
#[local] Set Elimination Schemes.

(** ** The models (structs with their [json] and [bson] tags) *)

Class Entity (T : Type) := {
  ID : T → ObjectID;
  set_ID : T → ObjectID → T;                  (* [x.ID = id] *)
  bson_Marshal : T → document;
  bson_Unmarshal : document → error + T;
  json_Marshal : T → json;
}.

(** [ObjectID.Hex]: the twelve bytes as 24 lower-case hexadecimal
    digits. *)
Definition hex_digit (n : N) : ascii :=
  match n with
  | 0 => "0" | 1 => "1" | 2 => "2" | 3 => "3" | 4 => "4" | 5 => "5"
  | 6 => "6" | 7 => "7" | 8 => "8" | 9 => "9" | 10 => "a" | 11 => "b"
  | 12 => "c" | 13 => "d" | 14 => "e" | _ => "f"
  end%N%char.

Fixpoint hex_digits (digits : nat) (n : N) : string :=
  match digits with
  | O => ""
  | S k => hex_digits k (n / 16) ++ String (hex_digit (n mod 16)) ""
  end.

Definition ObjectID_Hex (id : ObjectID) : string := hex_digits 24 id.

(** [primitive.ObjectIDFromHex]: exactly 24 hexadecimal digits, of either
    case. *)
Definition hex_value (c : ascii) : option N :=
  let n := N_of_ascii c in
  if ((48 <=? n) && (n <=? 57))%N then Some (n - 48)%N
  else if ((97 <=? n) && (n <=? 102))%N then Some (n - 87)%N
  else if ((65 <=? n) && (n <=? 70))%N then Some (n - 55)%N
  else None.

Fixpoint hex_number (s : string) (acc : N) : option N :=
  match s with
  | EmptyString => Some acc
  | String c rest =>
      match hex_value c with
      | Some v => hex_number rest (16 * acc + v)%N
      | None => None
      end
  end.

Definition ObjectIDFromHex (s : string) : option ObjectID :=
  if Nat.eqb (String.length s) 24 then hex_number s 0%N else None.

(** The zero [time.Time], January 1 of year 1, 00:00:00 UTC, in
    nanoseconds before the Unix epoch. *)
Definition zero_Time : Time := (-62135596800000000000)%Z.

(** Decoding one struct field from a document.  An absent key leaves the
    zero value of the field.  A value of the BSON type of the field
    decodes; besides, an ObjectID decodes into a string field as its
    hexadecimal text and a string of 24 hexadecimal digits into an
    ObjectID field.  The other combinations of the four BSON types are
    answered with an error; the text of a decoding error stands for the
    driver's. *)
Definition get_string (d : document) (key : string) : error + string :=
  match Lookup key d with
  | None => inr ""
  | Some (VString s) => inr s
  | Some (VObjectID id) => inr (ObjectID_Hex id)
  | Some _ => inl (DecodeError ("cannot decode into a string: " ++ key))
  end.

Definition get_int (d : document) (key : string) : error + Z :=
  match Lookup key d with
  | None => inr 0%Z
  | Some (VInt n) => inr n
  | Some _ => inl (DecodeError ("cannot decode into an int: " ++ key))
  end.

Definition get_ObjectID (d : document) (key : string) : error + ObjectID :=
  match Lookup key d with
  | None => inr NilObjectID
  | Some (VObjectID id) => inr id
  | Some (VString s) =>
      match ObjectIDFromHex s with
      | Some id => inr id
      | None =>
          inl (DecodeError ("cannot decode into an ObjectID: " ++ key))
      end
  | Some _ => inl (DecodeError ("cannot decode into an ObjectID: " ++ key))
  end.

Definition get_Time (d : document) (key : string) : error + Time :=
  match Lookup key d with
  | None => inr zero_Time
  | Some (VDateTime ms) => inr (DateTime_Time ms)
  | Some _ => inl (DecodeError ("cannot decode into a time.Time: " ++ key))
  end.

(** The error monad used by the struct decoders. *)
#[global] Instance sum_ret : MRet (sum error) := λ _ x, inr x.
#[global] Instance sum_bind : MBind (sum error) := λ _ _ f m,
  match m with inl e => inl e | inr x => f x end.

(** [bson:"_id,omitempty"]: the element is left out when the ObjectID is
    zero. *)
Definition omitempty_id (id : ObjectID) : document :=
  if ObjectID_IsZero id then [] else [("_id", VObjectID id)].

Module User.
Record t := mk { ID : ObjectID; Name : string; Email : string }.

Definition bson (u : t) : document :=
  omitempty_id (ID u) ++
  [("name", VString (Name u)); ("email", VString (Email u))].

Definition of_bson (d : document) : error + t :=
  id ← get_ObjectID d "_id";
  name ← get_string d "name";
  email ← get_string d "email";
  mret (mk id name email).

Definition json (u : t) : json :=
  JObject [("id", JObjectID (ID u)); ("name", JString (Name u));
           ("email", JString (Email u))].
End User.

Module Patient.
Record t := mk {
  ID : ObjectID; Name : string; Email : string; Age : Z; Gender : string;
  BloodGroup : string; ContactNo : string; CreatedAt : Time }.

Definition bson (p : t) : document :=
  omitempty_id (ID p) ++
  [("name", VString (Name p)); ("email", VString (Email p));
   ("age", VInt (Age p)); ("gender", VString (Gender p));
   ("bloodGroup", VString (BloodGroup p));
   ("contactNo", VString (ContactNo p));
   ("createdAt", VDateTime (NewDateTimeFromTime (CreatedAt p)))].

Definition of_bson (d : document) : error + t :=
  id ← get_ObjectID d "_id";
  name ← get_string d "name";
  email ← get_string d "email";
  age ← get_int d "age";
  gender ← get_string d "gender";
  bloodGroup ← get_string d "bloodGroup";
  contactNo ← get_string d "contactNo";
  createdAt ← get_Time d "createdAt";
  mret (mk id name email age gender bloodGroup contactNo createdAt).

Definition json (p : t) : json :=
  JObject [("id", JObjectID (ID p)); ("name", JString (Name p));
           ("email", JString (Email p)); ("age", JNumber (Age p));
           ("gender", JString (Gender p));
           ("bloodGroup", JString (BloodGroup p));
           ("contactNo", JString (ContactNo p));
           ("createdAt", JTime (CreatedAt p))].

Definition set_CreatedAt (p : t) (now : Time) : t :=
  mk (ID p) (Name p) (Email p) (Age p) (Gender p) (BloodGroup p)
     (ContactNo p) now.
End Patient.

Module Doctor.
Record t := mk {
  ID : ObjectID; Name : string; Email : string; Specialization : string;
  Department : string; ContactNo : string; CreatedAt : Time }.

Definition bson (x : t) : document :=
  omitempty_id (ID x) ++
  [("name", VString (Name x)); ("email", VString (Email x));
   ("specialization", VString (Specialization x));
   ("department", VString (Department x));
   ("contactNo", VString (ContactNo x));
   ("createdAt", VDateTime (NewDateTimeFromTime (CreatedAt x)))].

Definition of_bson (d : document) : error + t :=
  id ← get_ObjectID d "_id";
  name ← get_string d "name";
  email ← get_string d "email";
  specialization ← get_string d "specialization";
  department ← get_string d "department";
  contactNo ← get_string d "contactNo";
  createdAt ← get_Time d "createdAt";
  mret (mk id name email specialization department contactNo createdAt).

Definition json (x : t) : json :=
  JObject [("id", JObjectID (ID x)); ("name", JString (Name x));
           ("email", JString (Email x));
           ("specialization", JString (Specialization x));
           ("department", JString (Department x));
           ("contactNo", JString (ContactNo x));
           ("createdAt", JTime (CreatedAt x))].

Definition set_CreatedAt (x : t) (now : Time) : t :=
  mk (ID x) (Name x) (Email x) (Specialization x) (Department x)
     (ContactNo x) now.
End Doctor.

Module Appointment.
Record t := mk {
  ID : ObjectID; PatientID : ObjectID; DoctorID : ObjectID; DateTime : Time;
  Status : string;                    (* Scheduled, Completed, Cancelled *)
  Description : string; CreatedAt : Time }.

(** Only [_id] carries [omitempty]: a zero [patientId] or [doctorId] is
    written as it is. *)
Definition bson (a : t) : document :=
  omitempty_id (ID a) ++
  [("patientId", VObjectID (PatientID a));
   ("doctorId", VObjectID (DoctorID a));
   ("dateTime", VDateTime (NewDateTimeFromTime (DateTime a)));
   ("status", VString (Status a));
   ("description", VString (Description a));
   ("createdAt", VDateTime (NewDateTimeFromTime (CreatedAt a)))].

Definition of_bson (d : document) : error + t :=
  id ← get_ObjectID d "_id";
  patientId ← get_ObjectID d "patientId";
  doctorId ← get_ObjectID d "doctorId";
  dateTime ← get_Time d "dateTime";
  status ← get_string d "status";
  description ← get_string d "description";
  createdAt ← get_Time d "createdAt";
  mret (mk id patientId doctorId dateTime status description createdAt).

Definition json (a : t) : json :=
  JObject [("id", JObjectID (ID a)); ("patientId", JObjectID (PatientID a));
           ("doctorId", JObjectID (DoctorID a));
           ("dateTime", JTime (DateTime a)); ("status", JString (Status a));
           ("description", JString (Description a));
           ("createdAt", JTime (CreatedAt a))].

Definition set_CreatedAt (a : t) (now : Time) : t :=
  mk (ID a) (PatientID a) (DoctorID a) (DateTime a) (Status a)
     (Description a) now.

Definition set_Status (a : t) (status : string) : t :=
  mk (ID a) (PatientID a) (DoctorID a) (DateTime a) status
     (Description a) (CreatedAt a).
End Appointment.

Module Department.
Record t := mk {
  ID : ObjectID; Name : string; Description : string; CreatedAt : Time }.

Definition bson (x : t) : document :=
  omitempty_id (ID x) ++
  [("name", VString (Name x)); ("description", VString (Description x));
   ("createdAt", VDateTime (NewDateTimeFromTime (CreatedAt x)))].

Definition of_bson (d : document) : error + t :=
  id ← get_ObjectID d "_id";
  name ← get_string d "name";
  description ← get_string d "description";
  createdAt ← get_Time d "createdAt";
  mret (mk id name description createdAt).

Definition json (x : t) : json :=
  JObject [("id", JObjectID (ID x)); ("name", JString (Name x));
           ("description", JString (Description x));
           ("createdAt", JTime (CreatedAt x))].

Definition set_CreatedAt (x : t) (now : Time) : t :=
  mk (ID x) (Name x) (Description x) now.
End Department.

#[global] Instance User_Entity : Entity User.t := {|
  ID := User.ID;
  set_ID u id := User.mk id (User.Name u) (User.Email u);
  bson_Marshal := User.bson;
  bson_Unmarshal := User.of_bson;
  json_Marshal := User.json;
|}.

#[global] Instance Patient_Entity : Entity Patient.t := {|
  ID := Patient.ID;
  set_ID p id :=
    Patient.mk id (Patient.Name p) (Patient.Email p) (Patient.Age p)
      (Patient.Gender p) (Patient.BloodGroup p) (Patient.ContactNo p)
      (Patient.CreatedAt p);
  bson_Marshal := Patient.bson;
  bson_Unmarshal := Patient.of_bson;
  json_Marshal := Patient.json;
|}.

#[global] Instance Doctor_Entity : Entity Doctor.t := {|
  ID := Doctor.ID;
  set_ID x id :=
    Doctor.mk id (Doctor.Name x) (Doctor.Email x) (Doctor.Specialization x)
      (Doctor.Department x) (Doctor.ContactNo x) (Doctor.CreatedAt x);
  bson_Marshal := Doctor.bson;
  bson_Unmarshal := Doctor.of_bson;
  json_Marshal := Doctor.json;
|}.

#[global] Instance Appointment_Entity : Entity Appointment.t := {|
  ID := Appointment.ID;
  set_ID a id :=
    Appointment.mk id (Appointment.PatientID a) (Appointment.DoctorID a)
      (Appointment.DateTime a) (Appointment.Status a)
      (Appointment.Description a) (Appointment.CreatedAt a);
  bson_Marshal := Appointment.bson;
  bson_Unmarshal := Appointment.of_bson;
  json_Marshal := Appointment.json;
|}.

#[global] Instance Department_Entity : Entity Department.t := {|
  ID := Department.ID;
  set_ID x id :=
    Department.mk id (Department.Name x) (Department.Description x)
      (Department.CreatedAt x);
  bson_Marshal := Department.bson;
  bson_Unmarshal := Department.of_bson;
  json_Marshal := Department.json;
|}.

(** ** The MongoDB server and the driver *)

(** The collection handles of the two programs: [collection] is
    [userdb.users], the other four live in [hospitaldb]. *)
Inductive Handle :=
| collection
| patientCollection
| doctorCollection
| appointmentCollection
| departmentCollection.

#[global] Instance Handle_eq_dec : EqDecision Handle.
Proof. solve_decision. Defined.

(** A collection: its documents in insertion order and the keys that
    carry a unique index ([_id] always does). *)
Record Collection := {
  Docs : list document;
  Unique : list string;
}.

Record Mongod := {
  users : Collection;
  patients : Collection;
  doctors : Collection;
  appointments : Collection;
  departments : Collection;
}.

Definition coll (h : Handle) (m : Mongod) : Collection :=
  match h with
  | collection => users m
  | patientCollection => patients m
  | doctorCollection => doctors m
  | appointmentCollection => appointments m
  | departmentCollection => departments m
  end.

Definition set_coll (h : Handle) (c : Collection) (m : Mongod) : Mongod :=
  match h with
  | collection =>
      Build_Mongod c (patients m) (doctors m) (appointments m) (departments m)
  | patientCollection =>
      Build_Mongod (users m) c (doctors m) (appointments m) (departments m)
  | doctorCollection =>
      Build_Mongod (users m) (patients m) c (appointments m) (departments m)
  | appointmentCollection =>
      Build_Mongod (users m) (patients m) (doctors m) c (departments m)
  | departmentCollection =>
      Build_Mongod (users m) (patients m) (doctors m) (appointments m) c
  end.

(** One call of the driver, with what it returned. *)
Inductive Call :=
| CallInsertOne (h : Handle) (d : document) (res : error + value)
| CallFindOne (h : Handle) (filter : document) (res : error + document)
| CallFind (h : Handle) (filter : document) (res : error + list document).

(** What a handler runs against.  [net] scripts the coming round trips to
    the server: [None] completes, [Some msg] fails with that message (the
    5 s deadline of [ctx] expired, no server reachable); when the script
    is exhausted every round trip completes.  [calls] is the history of
    driver calls, oldest first. *)
Record World := {
  mongod : Mongod;
  net : list (option string);
  clock : Time;
  lastID : ObjectID;
  calls : list Call;
}.

Definition IO (A : Type) : Type := World → A * World.

#[global] Instance IO_ret : MRet IO := λ _ x w, (x, w).
#[global] Instance IO_bind : MBind IO := λ _ _ f m w,
  let (x, w') := m w in f x w'.

(** [time.Now()] *)
Definition time_Now : IO Time := λ w, (clock w, w).

(** [primitive.NewObjectID()]: never the zero ObjectID. *)
Definition NewObjectID : IO ObjectID := λ w,
  let id := N.succ (lastID w) in
  (id, Build_World (mongod w) (net w) (clock w) id (calls w)).

Definition roundtrip : IO (option error) := λ w,
  match net w with
  | [] => (None, w)
  | outcome :: rest =>
      (Unavailable <$> outcome,
       Build_World (mongod w) rest (clock w) (lastID w) (calls w))
  end.

Definition log (c : Call) : IO () := λ w,
  ((), Build_World (mongod w) (net w) (clock w) (lastID w) (calls w ++ [c])).

Definition server {A} (f : Mongod → A * Mongod) : IO A := λ w,
  let (x, m) := f (mongod w) in
  (x, Build_World m (net w) (clock w) (lastID w) (calls w)).

(** The unique key on which [d] collides with a stored document. *)
Definition conflict (c : Collection) (d : document) : option string :=
  List.find
    (λ key, existsb (λ e, bool_decide (Lookup key e = Lookup key d)) (Docs c))
    ("_id" :: Unique c).

(** A filter is a document of equalities; [bson.M{}] is [[]]. *)
Definition matches (filter d : document) : bool :=
  forallb (λ kv, bool_decide (Lookup kv.1 d = Some kv.2)) filter.

(** The driver gives a document without [_id] a new ObjectID before
    sending it. *)
Definition ensureID (d : document) : IO (document * value) :=
  match Lookup "_id" d with
  | Some id => mret (d, id)
  | None => id ← NewObjectID; mret (("_id", VObjectID id) :: d, VObjectID id)
  end.

(** [InsertOne]: on success the result is the [InsertedID].  A round trip
    that fails leaves the collection as it was. *)
Definition InsertOne (h : Handle) (d : document) : IO (error + value) :=
  '(d, id) ← ensureID d;
  failure ← roundtrip;
  res ← match failure with
        | Some err => mret (inl err)
        | None =>
            server (λ m,
              let c := coll h m in
              match conflict c d with
              | Some key => (inl (DuplicateKey key), m)
              | None =>
                  (inr id,
                   set_coll h (Build_Collection (Docs c ++ [d]) (Unique c)) m)
              end)
        end;
  log (CallInsertOne h d res);;
  mret res.

(** [FindOne]: the first document that matches, [ErrNoDocuments] when none
    does. *)
Definition FindOne (h : Handle) (filter : document) : IO (error + document) :=
  failure ← roundtrip;
  res ← match failure with
        | Some err => mret (inl err)
        | None =>
            server (λ m,
              (match List.find (matches filter) (Docs (coll h m)) with
               | Some d => inr d
               | None => inl ErrNoDocuments
               end, m))
        end;
  log (CallFindOne h filter res);;
  mret res.

(** [SingleResult.Decode]: the error of the lookup, or of decoding the
    document found into the struct. *)
Definition SingleResult_Decode {T} `{Entity T}
    (res : error + document) : error + T :=
  d ← res; bson_Unmarshal d.

(** [Find]: a cursor over the matching documents. *)
Definition Find (h : Handle) (filter : document)
    : IO (error + list document) :=
  failure ← roundtrip;
  res ← match failure with
        | Some err => mret (inl err)
        | None =>
            server (λ m, (inr (List.filter (matches filter) (Docs (coll h m))), m))
        end;
  log (CallFind h filter res);;
  mret res.

(** [Cursor.All]: decodes every document of the cursor and overwrites the
    slice with them.  The slice is resliced to the number of documents
    read, so with an empty cursor a [nil] slice stays [nil]. *)
Definition Cursor_All {T} `{Entity T}
    (cursor : list document) (results : slice T) : error + slice T :=
  elts ← mapM bson_Unmarshal cursor;
  match elts, results with
  | [], nil_slice => mret nil_slice
  | _, _ => mret (Slice elts)
  end.

(** The type assertion [result.InsertedID.(primitive.ObjectID)]. *)
Definition ObjectID_of (InsertedID : value) : ObjectID :=
  match InsertedID with
  | VObjectID id => id
  | _ => NilObjectID
  end.

(** ** net/http *)

Definition MethodGet := "GET".
Definition MethodPost := "POST".
Definition StatusOK := 200.
Definition StatusCreated := 201.
Definition StatusBadRequest := 400.
Definition StatusMethodNotAllowed := 405.
Definition StatusInternalServerError := 500.

(** A request, as far as the handlers look at it: the method, and what
    [json.NewDecoder(r.Body).Decode(&v)] yields on its body for the struct
    [T] of the endpoint. *)
Record Request (T : Type) := {
  Method : string;
  Body : error + T;
}.
Arguments Method {T} r.
Arguments Body {T} r.

Definition Decode {T} (r : Request T) : error + T := Body r.

(** What is written after the header: a line of text ([http.Error]) or one
    JSON value ([Encoder.Encode]). *)
Inductive body :=
| Text (line : string)
| JSON (v : json).

Record Response := {
  StatusCode : nat;
  ContentType : string;
  Written : body;
}.

Definition http_Error (msg : string) (code : nat) : Response :=
  {| StatusCode := code;
     ContentType := "text/plain; charset=utf-8";
     Written := Text msg |}.

(** [w.Header().Set("Content-Type", "application/json")], the status and
    [json.NewEncoder(w).Encode(v)]. *)
Definition write_json (code : nat) (v : json) : Response :=
  {| StatusCode := code; ContentType := "application/json"; Written := JSON v |}.

(** [encoding/json] on a slice: a nil slice encodes as [null]. *)
Definition json_slice {T} `{Entity T} (s : slice T) : json :=
  match s with
  | nil_slice => JNull
  | Slice elts => JArray (json_Marshal <$> elts)
  end.

(** ** The handlers of [src/main.go] *)

Definition createUser (r : Request User.t) : IO Response :=
  if negb (String.eqb (Method r) MethodPost) then
    mret (http_Error "Method not allowed" StatusMethodNotAllowed)
  else
    match Decode r with
    | inl err => mret (http_Error (Error err) StatusBadRequest)
    | inr user =>
        result ← InsertOne collection (bson_Marshal user);
        match result with
        | inl err => mret (http_Error (Error err) StatusInternalServerError)
        | inr InsertedID =>
            let user := set_ID user (ObjectID_of InsertedID) in
            mret (write_json StatusCreated (json_Marshal user))
        end
    end.

Definition getUsers {T} (r : Request T) : IO Response :=
  if negb (String.eqb (Method r) MethodGet) then
    mret (http_Error "Method not allowed" StatusMethodNotAllowed)
  else
    cursor ← Find collection [];
    match cursor with
    | inl err => mret (http_Error (Error err) StatusInternalServerError)
    | inr cursor =>
        let users : slice User.t := nil_slice in
        match Cursor_All cursor users with
        | inl err => mret (http_Error (Error err) StatusInternalServerError)
        | inr users => mret (write_json StatusOK (json_slice users))
        end
    end.

(** ** The handlers of the hospital service *)

Definition createPatient (r : Request Patient.t) : IO Response :=
  if negb (String.eqb (Method r) MethodPost) then
    mret (http_Error "Method not allowed" StatusMethodNotAllowed)
  else
    match Decode r with
    | inl err => mret (http_Error (Error err) StatusBadRequest)
    | inr patient =>
        now ← time_Now;
        let patient := Patient.set_CreatedAt patient now in
        result ← InsertOne patientCollection (bson_Marshal patient);
        match result with
        | inl err => mret (http_Error (Error err) StatusInternalServerError)
        | inr InsertedID =>
            let patient := set_ID patient (ObjectID_of InsertedID) in
            mret (write_json StatusCreated (json_Marshal patient))
        end
    end.

Definition getPatients {T} (r : Request T) : IO Response :=
  if negb (String.eqb (Method r) MethodGet) then
    mret (http_Error "Method not allowed" StatusMethodNotAllowed)
  else
    cursor ← Find patientCollection [];
    match cursor with
    | inl err => mret (http_Error (Error err) StatusInternalServerError)
    | inr cursor =>
        let patients : slice Patient.t := nil_slice in
        match Cursor_All cursor patients with
        | inl err => mret (http_Error (Error err) StatusInternalServerError)
        | inr patients => mret (write_json StatusOK (json_slice patients))
        end
    end.

Definition createDoctor (r : Request Doctor.t) : IO Response :=
  if negb (String.eqb (Method r) MethodPost) then
    mret (http_Error "Method not allowed" StatusMethodNotAllowed)
  else
    match Decode r with
    | inl err => mret (http_Error (Error err) StatusBadRequest)
    | inr doctor =>
        now ← time_Now;
        let doctor := Doctor.set_CreatedAt doctor now in
        result ← InsertOne doctorCollection (bson_Marshal doctor);
        match result with
        | inl err => mret (http_Error (Error err) StatusInternalServerError)
        | inr InsertedID =>
            let doctor := set_ID doctor (ObjectID_of InsertedID) in
            mret (write_json StatusCreated (json_Marshal doctor))
        end
    end.

(** [validateAppointment] returns [None] for Go's [nil]. *)
Definition validateAppointment (appointment : Appointment.t)
    : IO (option error) :=
  (* Check if patient exists *)
  found ← FindOne patientCollection
            [("_id", VObjectID (Appointment.PatientID appointment))];
  match SingleResult_Decode (T := Patient.t) found with
  | inl _ => mret (Some (Errorf "patient not found"))
  | inr _ =>
      (* Check if doctor exists *)
      found ← FindOne doctorCollection
                [("_id", VObjectID (Appointment.DoctorID appointment))];
      match SingleResult_Decode (T := Doctor.t) found with
      | inl _ => mret (Some (Errorf "doctor not found"))
      | inr _ => mret None
      end
  end.

Definition createAppointment (r : Request Appointment.t) : IO Response :=
  if negb (String.eqb (Method r) MethodPost) then
    mret (http_Error "Method not allowed" StatusMethodNotAllowed)
  else
    match Decode r with
    | inl err => mret (http_Error (Error err) StatusBadRequest)
    | inr appointment =>
        now ← time_Now;
        let appointment := Appointment.set_CreatedAt appointment now in
        let appointment := Appointment.set_Status appointment "Scheduled" in
        (* Validate patient and doctor existence *)
        invalid ← validateAppointment appointment;
        match invalid with
        | Some err => mret (http_Error (Error err) StatusBadRequest)
        | None =>
            result ← InsertOne appointmentCollection (bson_Marshal appointment);
            match result with
            | inl err =>
                mret (http_Error (Error err) StatusInternalServerError)
            | inr InsertedID =>
                let appointment :=
                  set_ID appointment (ObjectID_of InsertedID) in
                mret (write_json StatusCreated (json_Marshal appointment))
            end
        end
    end.

Definition createDepartment (r : Request Department.t) : IO Response :=
  if negb (String.eqb (Method r) MethodPost) then
    mret (http_Error "Method not allowed" StatusMethodNotAllowed)
  else
    match Decode r with
    | inl err => mret (http_Error (Error err) StatusBadRequest)
    | inr department =>
        now ← time_Now;
        let department := Department.set_CreatedAt department now in
        result ← InsertOne departmentCollection (bson_Marshal department);
        match result with
        | inl err => mret (http_Error (Error err) StatusInternalServerError)
        | inr InsertedID =>
            let department := set_ID department (ObjectID_of InsertedID) in
            mret (write_json StatusCreated (json_Marshal department))
        end
    end.

(** ** The creation endpoints, as [main] registers them *)

Inductive Endpoint :=
| users_              (* /users        createUser *)
| patients_           (* /patients     createPatient *)
| doctors_            (* /doctors      createDoctor *)
| appointments_       (* /appointments createAppointment *)
| departments_.       (* /departments  createDepartment *)

Definition model (e : Endpoint) : Type :=
  match e with
  | users_ => User.t
  | patients_ => Patient.t
  | doctors_ => Doctor.t
  | appointments_ => Appointment.t
  | departments_ => Department.t
  end.

Definition create (e : Endpoint) : Request (model e) → IO Response :=
  match e with
  | users_ => createUser
  | patients_ => createPatient
  | doctors_ => createDoctor
  | appointments_ => createAppointment
  | departments_ => createDepartment
  end.

Definition handle (e : Endpoint) : Handle :=
  match e with
  | users_ => collection
  | patients_ => patientCollection
  | doctors_ => doctorCollection
  | appointments_ => appointmentCollection
  | departments_ => departmentCollection
  end.

Definition model_Entity (e : Endpoint) : Entity (model e) :=
  match e with
  | users_ => User_Entity
  | patients_ => Patient_Entity
  | doctors_ => Doctor_Entity
  | appointments_ => Appointment_Entity
  | departments_ => Department_Entity
  end.

(** ** The state machine of a creation handler

    The five creation handlers are one pipeline: method check, decoding,
    server-assigned fields, validation (appointments only), insertion,
    response.  [stamp] and [validation] are what differs. *)

Definition stamp (e : Endpoint) : model e → Time → model e :=
  match e with
  | users_ => λ user _, user
  | patients_ => Patient.set_CreatedAt
  | doctors_ => Doctor.set_CreatedAt
  | appointments_ => λ appointment now,
      Appointment.set_Status (Appointment.set_CreatedAt appointment now)
        "Scheduled"
  | departments_ => Department.set_CreatedAt
  end.

Definition validation (e : Endpoint) : model e → IO (option error) :=
  match e with
  | appointments_ => validateAppointment
  | _ => λ _, mret None
  end.

Definition pipeline (e : Endpoint) (r : Request (model e)) : IO Response :=
  if negb (String.eqb (Method r) MethodPost) then
    mret (http_Error "Method not allowed" StatusMethodNotAllowed)
  else
    match Decode r with
    | inl err => mret (http_Error (Error err) StatusBadRequest)
    | inr x =>
        now ← time_Now;
        let x := stamp e x now in
        invalid ← validation e x;
        match invalid with
        | Some err => mret (http_Error (Error err) StatusBadRequest)
        | None =>
            result ← InsertOne (handle e) (@bson_Marshal _ (model_Entity e) x);
            match result with
            | inl err =>
                mret (http_Error (Error err) StatusInternalServerError)
            | inr InsertedID =>
                mret (write_json StatusCreated
                        (@json_Marshal _ (model_Entity e)
                           (@set_ID _ (model_Entity e) x
                              (ObjectID_of InsertedID))))
            end
        end
    end.

(** The driver calls made between two worlds. *)
Definition issued (w w' : World) : list Call :=
  drop (length (calls w)) (calls w').

(** ** Outcomes of a request *)

(** The document [InsertOne] sends for [d]. *)
Definition sent (d : document) (w : World) : document :=
  match Lookup "_id" d with
  | Some _ => d
  | None => ("_id", VObjectID (N.succ (lastID w))) :: d
  end.

(** The identifier under which a record is stored: its own [ID] when that
    is not zero, else the one the driver generates. *)
Definition stored_id {T} `{Entity T} (x : T) (w : World) : ObjectID :=
  if ObjectID_IsZero (ID x) then N.succ (lastID w) else ID x.

(** The three ways [validateAppointment] can run, told by the driver calls
    it made. *)
Inductive validated (appointment : Appointment.t) (m : Mongod)
    : list Call → option error → Prop :=
| patient_missing found err :
    SingleResult_Decode (T := Patient.t) found = inl err →
    validated appointment m
      [CallFindOne patientCollection
         [("_id", VObjectID (Appointment.PatientID appointment))] found]
      (Some (Errorf "patient not found"))
| doctor_missing patient p found err :
    patient ∈ Docs (patients m) →
    Lookup "_id" patient = Some (VObjectID (Appointment.PatientID appointment)) →
    SingleResult_Decode (T := Patient.t) (inr patient) = inr p →
    SingleResult_Decode (T := Doctor.t) found = inl err →
    validated appointment m
      [CallFindOne patientCollection
         [("_id", VObjectID (Appointment.PatientID appointment))] (inr patient);
       CallFindOne doctorCollection
         [("_id", VObjectID (Appointment.DoctorID appointment))] found]
      (Some (Errorf "doctor not found"))
| both_found patient p doctor x :
    patient ∈ Docs (patients m) →
    Lookup "_id" patient = Some (VObjectID (Appointment.PatientID appointment)) →
    SingleResult_Decode (T := Patient.t) (inr patient) = inr p →
    doctor ∈ Docs (doctors m) →
    Lookup "_id" doctor = Some (VObjectID (Appointment.DoctorID appointment)) →
    SingleResult_Decode (T := Doctor.t) (inr doctor) = inr x →
    validated appointment m
      [CallFindOne patientCollection
         [("_id", VObjectID (Appointment.PatientID appointment))] (inr patient);
       CallFindOne doctorCollection
         [("_id", VObjectID (Appointment.DoctorID appointment))] (inr doctor)]
      None.

(** What the validation step of an endpoint may do. *)
Definition checked (e : Endpoint)
    : model e → Mongod → list Call → option error → Prop :=
  match e with
  | appointments_ => validated
  | _ => λ _ _ evs result, evs = [] ∧ result = None
  end.

(** The outcomes of a creation request: the driver calls issued, the
    response and the server's collections afterwards. *)
Inductive served (e : Endpoint) (r : Request (model e)) (w : World)
    : list Call → Response → Mongod → Prop :=
| method_not_allowed :
    Method r ≠ MethodPost →
    served e r w []
      (http_Error "Method not allowed" StatusMethodNotAllowed) (mongod w)
| undecodable err :
    Method r = MethodPost → Decode r = inl err →
    served e r w [] (http_Error (Error err) StatusBadRequest) (mongod w)
| invalid x finds err :
    Method r = MethodPost → Decode r = inr x →
    checked e (stamp e x (clock w)) (mongod w) finds (Some err) →
    served e r w finds (http_Error (Error err) StatusBadRequest) (mongod w)
| insert_failed x finds d err :
    Method r = MethodPost → Decode r = inr x →
    checked e (stamp e x (clock w)) (mongod w) finds None →
    (∃ msg, err = Unavailable msg)
    ∨ (∃ key, err = DuplicateKey key ∧
              conflict (coll (handle e) (mongod w)) d = Some key) →
    served e r w (finds ++ [CallInsertOne (handle e) d (inl err)])
      (http_Error (Error err) StatusInternalServerError) (mongod w)
| created x finds :
    let E := model_Entity e in
    let x' := stamp e x (clock w) in
    let stored := set_ID x' (stored_id x' w) in
    Method r = MethodPost → Decode r = inr x →
    checked e x' (mongod w) finds None →
    conflict (coll (handle e) (mongod w)) (bson_Marshal stored) = None →
    served e r w
      (finds ++ [CallInsertOne (handle e) (bson_Marshal stored)
                   (inr (VObjectID (stored_id x' w)))])
      (write_json StatusCreated (json_Marshal stored))
      (set_coll (handle e)
         (Build_Collection
            (Docs (coll (handle e) (mongod w)) ++ [bson_Marshal stored])
            (Unique (coll (handle e) (mongod w))))
         (mongod w)).


(** The claim on creation timestamps: every document that a creation
    handler inserts carries, under [createdAt], the time at which the
    handler ran. *)
Definition timestamped (e : Endpoint) (r : Request (model e)) (w : World)
    : Prop :=
  ∀ h d InsertedID,
    CallInsertOne h d (inr InsertedID) ∈ issued w (create e r w).2 →
    Lookup "createdAt" d = Some (VDateTime (NewDateTimeFromTime (clock w))).

(** The claim on identifiers: the identifier under which a creation
    handler stores a record is the one generated at the insertion. *)
Definition store_assigned (e : Endpoint) (r : Request (model e)) (w : World)
    : Prop :=
  ∀ h d InsertedID,
    CallInsertOne h d (inr InsertedID) ∈ issued w (create e r w).2 →
    InsertedID = VObjectID (N.succ (lastID w)).

(** ** Sample data *)

Definition quiet : World := {|
  mongod :=
    {| users := Build_Collection [] ["email"];
       patients := Build_Collection [] ["email"];
       doctors := Build_Collection [] ["email"];
       appointments := Build_Collection [] [];
       departments := Build_Collection [] [] |};
  net := [];
  clock := 1704067200123456789%Z;
  lastID := 41%N;
  calls := [];
|}.

Definition post {T} (x : T) : Request T := {| Method := "POST"; Body := inr x |}.
Definition get : Request () := {| Method := "GET"; Body := inr () |}.

Definition alice : User.t := User.mk NilObjectID "A" "a@x.com".
Definition mallory : User.t := User.mk 7%N "M" "m@x.com".
Definition patientA : Patient.t :=
  Patient.mk NilObjectID "A" "a@x.com" 30%Z "F" "O+" "123" 0%Z.
Definition doctorB : Doctor.t :=
  Doctor.mk NilObjectID "B" "b@x.com" "cardiology" "heart" "456" 0%Z.
Definition checkup (patientId doctorId : ObjectID) : Appointment.t :=
  Appointment.mk NilObjectID patientId doctorId 1704067200000000000%Z
    "Cancelled" "checkup" 5%Z.

(** The world after registering [patientA] (id 42) and [doctorB] (id 43). *)
Definition staffed : World :=
  (createDoctor (post doctorB) (createPatient (post patientA) quiet).2).2.

(** [w] with the next round trip failing. *)
Definition offline (msg : string) (w : World) : World :=
  Build_World (mongod w) [Some msg] (clock w) (lastID w) (calls w).

(** The world after registering [alice]. *)
Definition registered : World := (createUser (post alice) quiet).2.

(** A store from before the hospital service had its indexes: two
    patients under one email. *)
Definition legacy : World := {|
  mongod :=
    {| users := Build_Collection [] [];
       patients :=
         Build_Collection
           [[("_id", VObjectID 1); ("email", VString "a@x.com")];
            [("_id", VObjectID 2); ("email", VString "a@x.com")]] [];
       doctors := Build_Collection [] [];
       appointments := Build_Collection [] [];
       departments := Build_Collection [] [] |};
  net := [];
  clock := 0;
  lastID := 2;
  calls := [];
|}.

(** ** Startup: [init] and [createIndexes]

    [Ping] and [Indexes().CreateOne] are not entered in [calls], which
    keeps the inserts and the lookups of the handlers. *)

(** [client.Ping(ctx, nil)] *)
Definition Ping : IO (option error) := roundtrip.

(** [Indexes().CreateOne] of a unique ascending index on [key]: refused
    when two stored documents agree on [key] (an absent key counts as a
    value); an index that exists already is left as it is. *)
Definition Indexes_CreateOne (h : Handle) (key : string) : IO (option error) :=
  failure ← roundtrip;
  match failure with
  | Some err => mret (Some err)
  | None =>
      server (λ m,
        let c := coll h m in
        if bool_decide (NoDup (Lookup key <$> Docs c)) then
          (None,
           set_coll h
             (Build_Collection (Docs c)
                (if bool_decide (key ∈ Unique c) then Unique c
                 else Unique c ++ [key]))
             m)
        else (Some (DuplicateKey key), m))
  end.

(** How [init] ends: [log.Fatal] stops the process, otherwise the server
    goes on to [main] with the lines that [log.Printf] wrote. *)
Inductive boot :=
| Fatal (err : error)
| Up (log : list string).

Module Hospital.
Definition createIndexes : IO (list string) :=
  (* Patient email index *)
  err ← Indexes_CreateOne patientCollection "email";
  let log1 :=
    match err with
    | Some err => [("Error creating patient index: " ++ Error err)%string]
    | None => []
    end in
  (* Doctor email index *)
  err ← Indexes_CreateOne doctorCollection "email";
  let log2 :=
    match err with
    | Some err => [("Error creating doctor index: " ++ Error err)%string]
    | None => []
    end in
  mret (log1 ++ log2).

(** [connect] is what [mongo.Connect] returned. *)
Definition init (connect : option error) : IO boot :=
  match connect with
  | Some err => mret (Fatal err)
  | None =>
      err ← Ping;
      match err with
      | Some err => mret (Fatal err)
      | None =>
          (* Create indexes *)
          log ← createIndexes;
          mret (Up log)
      end
  end.
End Hospital.

Module UserService.
Definition init (connect : option error) : IO boot :=
  match connect with
  | Some err => mret (Fatal err)
  | None =>
      (* Ping the database to verify connection *)
      err ← Ping;
      match err with
      | Some err => mret (Fatal err)
      | None =>
          (* Create unique index for email *)
          err ← Indexes_CreateOne collection "email";
          match err with
          | Some err => mret (Fatal err)
          | None => mret (Up [])
          end
      end
  end.
End UserService.

(** ** The routes of [main]

    A request as the mux of one of the two servers hands it to a handler:
    /users and /users/list in [src/main.go]; /patients, /patients/list,
    /doctors, /appointments and /departments in the hospital service. *)
Inductive request :=
| users_request (r : Request User.t)
| users_list_request (r : Request ())
| patients_request (r : Request Patient.t)
| patients_list_request (r : Request ())
| doctors_request (r : Request Doctor.t)
| appointments_request (r : Request Appointment.t)
| departments_request (r : Request Department.t).

Definition serve (q : request) : IO Response :=
  match q with
  | users_request r => createUser r
  | users_list_request r => getUsers r
  | patients_request r => createPatient r
  | patients_list_request r => getPatients r
  | doctors_request r => createDoctor r
  | appointments_request r => createAppointment r
  | departments_request r => createDepartment r
  end.

(** Requests served one after the other. *)
Fixpoint serve_all (qs : list request) : IO (list Response) :=
  match qs with
  | [] => mret []
  | q :: qs =>
      resp ← serve q;
      resps ← serve_all qs;
      mret (resp :: resps)
  end.

(** ** Properties of a store *)

(** Every scripted round trip completes. *)
Definition reachable (w : World) : Prop :=
  Forall (λ outcome, outcome = None) (net w).

(** [time.Time] as it comes back from BSON: cut to the millisecond. *)
Definition milliseconds (t : Time) : Time :=
  DateTime_Time (NewDateTimeFromTime t).

(** A record as it reads back from its stored document. *)
Definition as_stored (e : Endpoint) : model e → model e :=
  match e with
  | users_ => λ user, user
  | patients_ => λ p,
      Patient.set_CreatedAt p (milliseconds (Patient.CreatedAt p))
  | doctors_ => λ x,
      Doctor.set_CreatedAt x (milliseconds (Doctor.CreatedAt x))
  | appointments_ => λ a,
      Appointment.mk (Appointment.ID a) (Appointment.PatientID a)
        (Appointment.DoctorID a) (milliseconds (Appointment.DateTime a))
        (Appointment.Status a) (Appointment.Description a)
        (milliseconds (Appointment.CreatedAt a))
  | departments_ => λ x,
      Department.set_CreatedAt x (milliseconds (Department.CreatedAt x))
  end.


(** Every stored appointment names a stored patient and a stored doctor. *)
Definition references_resolve (m : Mongod) : Prop :=
  ∀ a, a ∈ Docs (appointments m) →
    (∃ id p, Lookup "patientId" a = Some (VObjectID id) ∧
             p ∈ Docs (patients m) ∧ Lookup "_id" p = Some (VObjectID id)) ∧
    (∃ id d, Lookup "doctorId" a = Some (VObjectID id) ∧
             d ∈ Docs (doctors m) ∧ Lookup "_id" d = Some (VObjectID id)).

(** No two documents of a collection agree on [_id] or on a key that
    carries a unique index. *)
Definition keys_unique (m : Mongod) : Prop :=
  ∀ h key, key ∈ "_id" :: Unique (coll h m) →
           NoDup (Lookup key <$> Docs (coll h m)).


(** ** What the driver calls do to the world *)

Ltac run :=
  unfold mbind, mret, IO_bind, IO_ret, sum_bind, sum_ret in *; simpl in *.

Lemma issued_app (w w' : World) (evs : list Call) :
  calls w' = calls w ++ evs → issued w w' = evs.
Proof.
  intros E. unfold issued. rewrite E. apply drop_app_length.
Qed.

Lemma issued_refl (w : World) : issued w w = [].
Proof. apply issued_app. by rewrite app_nil_r. Qed.

Lemma roundtrip_inv (w w' : World) (failure : option error) :
  roundtrip w = (failure, w') →
  mongod w' = mongod w ∧ clock w' = clock w ∧ lastID w' = lastID w ∧
  calls w' = calls w ∧
  match failure with
  | Some err => ∃ msg rest, err = Unavailable msg ∧ net w = Some msg :: rest
  | None => net w = [] ∨ ∃ rest, net w = None :: rest
  end.
Proof.
  unfold roundtrip. destruct w as [m n c l cs]; simpl.
  destruct n as [|[msg|] rest]; intros [= <- <-]; simpl; eauto 10.
Qed.

Lemma InsertOne_inv (h : Handle) (d : document) (w w' : World)
    (res : error + value) :
  InsertOne h d w = (res, w') →
  clock w' = clock w ∧
  calls w' = calls w ++ [CallInsertOne h (sent d w) res] ∧
  match res with
  | inl err =>
      mongod w' = mongod w ∧
      ((∃ msg, err = Unavailable msg)
       ∨ (∃ key, err = DuplicateKey key ∧
                 conflict (coll h (mongod w)) (sent d w) = Some key))
  | inr id =>
      Lookup "_id" (sent d w) = Some id ∧
      conflict (coll h (mongod w)) (sent d w) = None ∧
      mongod w' =
        set_coll h
          (Build_Collection (Docs (coll h (mongod w)) ++ [sent d w])
             (Unique (coll h (mongod w))))
          (mongod w)
  end.
Proof.
  unfold InsertOne, ensureID, sent, NewObjectID, log, server.
  destruct w as [m n c l cs].
  destruct (Lookup "_id" d) as [id|] eqn:Hid; run.
  - destruct (roundtrip _) as [[err|] w1] eqn:R;
      apply roundtrip_inv in R as (Em & Ec & El & Ecs & Hn); simpl in *; run.
    + destruct w1; simpl in *; subst. destruct Hn as (msg & rest & -> & _).
      intros [= <- <-]; simpl. eauto 10.
    + destruct w1; simpl in *; subst.
      destruct (conflict _ _) eqn:C; intros [= <- <-]; simpl; eauto 10.
  - destruct (roundtrip _) as [[err|] w1] eqn:R;
      apply roundtrip_inv in R as (Em & Ec & El & Ecs & Hn); simpl in *; run.
    + destruct w1; simpl in *; subst. destruct Hn as (msg & rest & -> & _).
      intros [= <- <-]; simpl. eauto 10.
    + destruct w1; simpl in *; subst.
      destruct (conflict _ _) eqn:C; intros [= <- <-]; simpl; eauto 10.
Qed.

Lemma find_matches (filter : document) (docs : list document) :
  match List.find (matches filter) docs with
  | Some d => d ∈ docs ∧ matches filter d = true
  | None => ∀ d, d ∈ docs → matches filter d = false
  end.
Proof.
  induction docs as [|d0 docs IH]; simpl.
  - intros d H. by apply elem_of_nil in H.
  - destruct (matches filter d0) eqn:M.
    + split; [left | done].
    + destruct (List.find _ docs) as [d|].
      * destruct IH. split; [by right | done].
      * intros d [->|H]%elem_of_cons; auto.
Qed.

Lemma FindOne_inv (h : Handle) (filter : document) (w w' : World)
    (res : error + document) :
  FindOne h filter w = (res, w') →
  mongod w' = mongod w ∧ clock w' = clock w ∧ lastID w' = lastID w ∧
  calls w' = calls w ++ [CallFindOne h filter res] ∧
  match res with
  | inr d => d ∈ Docs (coll h (mongod w)) ∧ matches filter d = true
  | inl ErrNoDocuments =>
      ∀ d, d ∈ Docs (coll h (mongod w)) → matches filter d = false
  | inl err => ∃ msg rest, err = Unavailable msg ∧ net w = Some msg :: rest
  end.
Proof.
  unfold FindOne, log, server. run.
  destruct (roundtrip w) as [[err|] w1] eqn:R;
    apply roundtrip_inv in R as (Em & Ec & El & Ecs & Hn); simpl in *.
  - destruct w1; simpl in *; subst. intros [= <- <-]; simpl.
    destruct Hn as (msg & rest & -> & Hn). eauto 10.
  - destruct w1; simpl in *; subst. intros [= <- <-]; simpl.
    repeat split; try done.
    pose proof (find_matches filter (Docs (coll h (mongod w)))) as F.
    by destruct (List.find _ _).
Qed.

Lemma Find_inv (h : Handle) (filter : document) (w w' : World)
    (res : error + list document) :
  Find h filter w = (res, w') →
  mongod w' = mongod w ∧ clock w' = clock w ∧ lastID w' = lastID w ∧
  calls w' = calls w ++ [CallFind h filter res] ∧
  match res with
  | inr cursor => cursor = List.filter (matches filter) (Docs (coll h (mongod w)))
  | inl err => ∃ msg rest, err = Unavailable msg ∧ net w = Some msg :: rest
  end.
Proof.
  unfold Find, log, server. run.
  destruct (roundtrip w) as [[err|] w1] eqn:R;
    apply roundtrip_inv in R as (Em & Ec & El & Ecs & Hn); simpl in *.
  - destruct w1; simpl in *; subst. intros [= <- <-]; simpl.
    destruct Hn as (msg & rest & -> & Hn). eauto 10.
  - destruct w1; simpl in *; subst. by intros [= <- <-].
Qed.

Lemma matches_id (id : ObjectID) (d : document) :
  matches [("_id", VObjectID id)] d = true ↔
  Lookup "_id" d = Some (VObjectID id).
Proof.
  unfold matches; simpl. rewrite andb_true_r. apply bool_decide_eq_true.
Qed.

(** ** The referential check *)

Lemma validateAppointment_inv (appointment : Appointment.t) (w w' : World)
    (result : option error) :
  validateAppointment appointment w = (result, w') →
  mongod w' = mongod w ∧ clock w' = clock w ∧ lastID w' = lastID w ∧
  ∃ evs, calls w' = calls w ++ evs ∧ validated appointment (mongod w) evs result.
Proof.
  unfold validateAppointment. run.
  destruct (FindOne patientCollection _ w) as [found1 w1] eqn:F1.
  apply FindOne_inv in F1 as (Em1 & Ec1 & El1 & Ecs1 & H1).
  destruct (SingleResult_Decode found1) as [err1|p] eqn:D1.
  - intros [= <- <-]. repeat split; try done.
    eexists; split; [done|]. by eapply patient_missing.
  - destruct found1 as [e1|patient]; [done|]. destruct H1 as [In1 M1].
    apply matches_id in M1. simpl in In1.
    destruct (FindOne doctorCollection _ w1) as [found2 w2] eqn:F2.
    apply FindOne_inv in F2 as (Em2 & Ec2 & El2 & Ecs2 & H2).
    assert (calls w2 = calls w ++
      [CallFindOne patientCollection
         [("_id", VObjectID (Appointment.PatientID appointment))] (inr patient);
       CallFindOne doctorCollection
         [("_id", VObjectID (Appointment.DoctorID appointment))] found2]) as Ecs.
    { rewrite Ecs2, Ecs1, <- app_assoc. done. }
    destruct (SingleResult_Decode found2) as [err2|x] eqn:D2.
    + intros [= <- <-]. repeat split; try congruence.
      eexists; split; [done|]. by eapply doctor_missing.
    + destruct found2 as [e2|doctor]; [done|]. destruct H2 as [In2 M2].
      apply matches_id in M2. rewrite Em1 in In2. simpl in In2.
      intros [= <- <-]. repeat split; try congruence.
      eexists; split; [done|]. by eapply both_found.
Qed.



(** ** The creation handlers, case by case *)

Lemma create_pipeline (e : Endpoint) (r : Request (model e)) (w : World) :
  create e r w = pipeline e r w.
Proof.
  destruct e; unfold create, pipeline, createUser, createPatient, createDoctor,
    createAppointment, createDepartment; simpl;
    destruct (negb _); try done; destruct (Decode r); done.
Qed.

Lemma validation_inv (e : Endpoint) (x : model e) (w w' : World)
    (result : option error) :
  validation e x w = (result, w') →
  mongod w' = mongod w ∧ clock w' = clock w ∧ lastID w' = lastID w ∧
  ∃ evs, calls w' = calls w ++ evs ∧ checked e x (mongod w) evs result.
Proof.
  destruct e; simpl; try apply validateAppointment_inv;
    intros [= <- <-]; repeat split; exists []; by rewrite app_nil_r.
Qed.

Lemma stored_id_nonzero {T} `{Entity T} (x : T) (w : World) :
  stored_id x w ≠ NilObjectID.
Proof.
  unfold stored_id, ObjectID_IsZero, NilObjectID.
  destruct (N.eqb_spec (ID x) 0); [lia | done].
Qed.

Lemma sent_bson_Marshal (e : Endpoint) (x : model e) (w : World) :
  let E := model_Entity e in
  sent (bson_Marshal x) w = bson_Marshal (set_ID x (stored_id x w)) ∧
  Lookup "_id" (sent (bson_Marshal x) w) = Some (VObjectID (stored_id x w)).
Proof.
  pose proof (@stored_id_nonzero _ (model_Entity e) x w) as NZ. revert NZ.
  destruct e; destruct x as [id]; simpl;
    unfold sent, stored_id, User.bson, Patient.bson, Doctor.bson,
      Appointment.bson, Department.bson, omitempty_id, ObjectID_IsZero,
      NilObjectID; simpl;
    destruct (N.eqb_spec id 0) as [->|NZ]; simpl; intros NZ';
    try destruct (N.eqb_spec (N.succ (lastID w)) 0); try done;
    destruct (N.eqb_spec id 0); done.
Qed.

Lemma create_served (e : Endpoint) (r : Request (model e)) (w : World) :
  let resp := (create e r w).1 in
  let w' := (create e r w).2 in
  calls w' = calls w ++ issued w w' ∧
  served e r w (issued w w') resp (mongod w').
Proof.
  simpl. rewrite create_pipeline. unfold pipeline.
  destruct (String.eqb_spec (Method r) MethodPost) as [HM|HM]; simpl.
  2:{ rewrite issued_refl, app_nil_r. split; [done|]. by constructor. }
  destruct (Decode r) as [err|x] eqn:HD; simpl.
  { rewrite issued_refl, app_nil_r. split; [done|]. by econstructor. }
  run. set (x' := stamp e x (clock w)).
  destruct (validation e x' w) as [[err|] w1] eqn:V;
    apply validation_inv in V as (Em1 & Ec1 & El1 & finds & Ecs1 & Hc); simpl.
  { rewrite (issued_app _ _ _ Ecs1), Em1. split; [done|]. by econstructor. }
  destruct (InsertOne (handle e) _ w1) as [[err|InsertedID] w2] eqn:I;
    apply InsertOne_inv in I as (Ec2 & Ecs2 & H2); simpl;
    rewrite Ecs1, <- app_assoc in Ecs2;
    rewrite (issued_app _ _ _ Ecs2); (split; [done|]).
  - destruct H2 as [Em2 Herr]. rewrite Em2, Em1. rewrite Em1 in Herr.
    by econstructor.
  - destruct H2 as (Hid & Hconf & Em2).
    assert (sent (@bson_Marshal _ (model_Entity e) x') w1 =
            sent (@bson_Marshal _ (model_Entity e) x') w) as Es.
    { unfold sent. by rewrite El1. }
    rewrite Es in *.
    destruct (sent_bson_Marshal e x' w) as [Eb Ei]. simpl in Eb, Ei.
    rewrite Ei in Hid. injection Hid as <-.
    rewrite Em2, Em1, Eb. rewrite Em1, Eb in Hconf. simpl.
    by apply created.
Qed.

Lemma checked_no_InsertOne (e : Endpoint) (x : model e) (m : Mongod)
    (evs : list Call) (result : option error) :
  checked e x m evs result →
  ∀ h d res, CallInsertOne h d res ∉ evs.
Proof.
  intros Hc h d res Hin.
  destruct e; simpl in Hc;
    try (destruct Hc as [-> _]; by apply elem_of_nil in Hin).
  destruct Hc; repeat (apply elem_of_cons in Hin as [Hin|Hin]; [done|]);
    by apply elem_of_nil in Hin.
Qed.

Lemma InsertOne_last (e : Endpoint) (x : model e) (m : Mongod)
    (finds : list Call) (result : option error) (c : Call)
    (h : Handle) (d : document) (res : error + value) :
  checked e x m finds result →
  CallInsertOne h d res ∈ finds ++ [c] → c = CallInsertOne h d res.
Proof.
  intros Hc [Hin|Hin%list_elem_of_singleton]%elem_of_app; [|done].
  by eapply checked_no_InsertOne in Hin.
Qed.

Lemma ID_stamp (e : Endpoint) (x : model e) (now : Time) :
  @ID _ (model_Entity e) (stamp e x now) = @ID _ (model_Entity e) x.
Proof. destruct e; done. Qed.

(** ** Method check *)

(** Claim C7.  A request to a creation endpoint whose method is not POST is
    answered 405 "Method not allowed" whatever its body is (also one that
    does not decode), and the world is left exactly as it was: no driver
    call, no round trip, no change of the store. *)
Theorem create_method_not_allowed
    (e : Endpoint) (r : Request (model e)) (w : World) :
  Method r ≠ MethodPost →
  create e r w =
    (http_Error "Method not allowed" StatusMethodNotAllowed, w).
Proof.
  intros HM. rewrite create_pipeline. unfold pipeline.
  by destruct (String.eqb_spec (Method r) MethodPost).
Qed.

(** ** Appointments *)

(** Claim C2.  A POST to /appointments whose body decodes to an
    appointment of which the patient reference or the doctor reference
    matches no stored record is answered 400 with the message of the
    validation error, "patient not found" or "doctor not found"; no
    [InsertOne] is issued and the collections of the server are
    unchanged. *)
Theorem createAppointment_unknown_reference
    (r : Request Appointment.t) (appointment : Appointment.t) (w : World) :
  Method r = MethodPost →
  Decode r = inr appointment →
  (∀ p, p ∈ Docs (patients (mongod w)) →
        Lookup "_id" p ≠ Some (VObjectID (Appointment.PatientID appointment)))
  ∨ (∀ d, d ∈ Docs (doctors (mongod w)) →
          Lookup "_id" d ≠ Some (VObjectID (Appointment.DoctorID appointment))) →
  let resp := (createAppointment r w).1 in
  let w' := (createAppointment r w).2 in
  (∃ err,
      validated (stamp appointments_ appointment (clock w)) (mongod w)
        (issued w w') (Some err) ∧
      resp = http_Error (Error err) StatusBadRequest) ∧
  (resp = http_Error "patient not found" StatusBadRequest
   ∨ resp = http_Error "doctor not found" StatusBadRequest) ∧
  StatusCode resp = 400 ∧
  mongod w' = mongod w ∧
  appointments (mongod w') = appointments (mongod w) ∧
  ∀ h d res, CallInsertOne h d res ∉ issued w w'.
Proof.
  intros HM HD Hno resp w'. subst resp w'.
  destruct (create_served appointments_ r w) as [_ S]. simpl in S.
  assert (∀ finds,
    ¬ validated (stamp appointments_ appointment (clock w)) (mongod w)
        finds None) as Hnone.
  { intros finds Hv. inversion Hv as [| |p ? d ? Hp Ep ? Hd Ed]; subst.
    destruct Hno as [Hno|Hno]; [by eapply (Hno p) | by eapply (Hno d)]. }
  inversion S as [HM'|err HM' HD'|x finds err _ HD' Hc|x finds d err _ HD' Hc
                 |x finds E x' stored _ HD' Hc]; simpl in *;
    try congruence;
    rewrite HD in HD'; injection HD' as <-;
    try (exfalso; by eapply Hnone).
  subst finds.
  assert (∀ h d res,
    CallInsertOne h d res ∉ issued w (createAppointment r w).2) as Hni.
  { intros h d res Hin.
    by eapply (checked_no_InsertOne appointments_) in Hin. }
  split; [by eauto|].
  split; [inversion Hc; simpl; auto | by repeat split].
Qed.

(** Claim C3.  Whenever /appointments answers 201, the document appended
    to the appointment collection and the record in the response body are
    the decoded input with [CreatedAt] and [Status] overwritten and the
    identifier set; their status is "Scheduled" whatever status the input
    carried. *)
Theorem createAppointment_status_Scheduled
    (r : Request Appointment.t) (w : World) :
  let resp := (createAppointment r w).1 in
  let w' := (createAppointment r w).2 in
  StatusCode resp = StatusCreated →
  ∃ input id,
    let stored :=
      set_ID
        (Appointment.set_Status
           (Appointment.set_CreatedAt input (clock w)) "Scheduled") id in
    Decode r = inr input ∧
    Docs (appointments (mongod w')) =
      Docs (appointments (mongod w)) ++ [bson_Marshal stored] ∧
    Lookup "status" (bson_Marshal stored) = Some (VString "Scheduled") ∧
    resp = write_json StatusCreated (json_Marshal stored) ∧
    Appointment.Status stored = "Scheduled".
Proof.
  intros resp w'. subst resp w'.
  destruct (create_served appointments_ r w) as [_ S]. simpl in S.
  destruct (createAppointment r w) as [resp w']. simpl in *.
  inversion S as [| | | |input finds E x' stored HM HD Hc Ecs Eresp Em];
    subst; simpl; try discriminate.
  intros _. exists input, (stored_id x' w).
  repeat split; try done.
  unfold Appointment.bson, omitempty_id; simpl.
  by destruct (ObjectID_IsZero _).
Qed.

(** ** Insertion *)

(** Claim C4.  When the [InsertOne] of a creation handler returns an
    error, be it a duplicate key or a failed round trip, the handler
    answers 500 with the message of that error; the answer is made from
    the message alone and in the same way for every kind of error. *)
Theorem create_insert_error
    (e : Endpoint) (r : Request (model e)) (w : World)
    (h : Handle) (d : document) (err : error) :
  CallInsertOne h d (inl err) ∈ issued w (create e r w).2 →
  (create e r w).1 = http_Error (Error err) StatusInternalServerError.
Proof.
  destruct (create_served e r w) as [_ S]. simpl in S.
  destruct (create e r w) as [resp w']. simpl in *.
  inversion S as [| |x finds err' HM HD Hc|x finds d' err' HM HD Hc
                 |x finds E x' stored HM HD Hc]; subst; intros Hin.
  - by apply elem_of_nil in Hin.
  - by apply elem_of_nil in Hin.
  - by eapply checked_no_InsertOne in Hin.
  - eapply InsertOne_last in Hin; [|done]. by injection Hin as _ _ ->.
  - eapply InsertOne_last in Hin; [|done]. discriminate.
Qed.

(** Claim C8.  When the [InsertOne] of a creation handler succeeds, the
    identifier it returns is an ObjectID, the handler puts it into the
    record and answers 201 with that record as JSON: the decoded input
    with the server-set fields and the identifier.  Conversely a handler
    answers 201 only after such an insertion: the last driver call is the
    successful [InsertOne] of the record's document, that document is the
    one appended to the collection, its [_id] is the identifier of the
    response, which is not zero, and the body is the decoded input with
    the server-set fields and that identifier. *)
Theorem create_success_response
    (e : Endpoint) (r : Request (model e)) (w : World) :
  let E := model_Entity e in
  let resp := (create e r w).1 in
  let w' := (create e r w).2 in
  (∀ h d InsertedID,
     CallInsertOne h d (inr InsertedID) ∈ issued w w' →
     ∃ x id,
       let stored := set_ID (stamp e x (clock w)) id in
       Decode r = inr x ∧
       InsertedID = VObjectID id ∧
       h = handle e ∧
       d = bson_Marshal stored ∧
       resp = write_json StatusCreated (json_Marshal stored) ∧
       StatusCode resp = 201 ∧
       ContentType resp = "application/json") ∧
  (StatusCode resp = StatusCreated →
   ∃ x id finds,
     let stored := set_ID (stamp e x (clock w)) id in
     Decode r = inr x ∧
     id ≠ NilObjectID ∧
     id = stored_id (stamp e x (clock w)) w ∧
     issued w w' =
       finds ++ [CallInsertOne (handle e) (bson_Marshal stored)
                   (inr (VObjectID id))] ∧
     (∀ h0 d0 res0, CallInsertOne h0 d0 res0 ∉ finds) ∧
     Docs (coll (handle e) (mongod w')) =
       Docs (coll (handle e) (mongod w)) ++ [bson_Marshal stored] ∧
     Lookup "_id" (bson_Marshal stored) = Some (VObjectID id) ∧
     resp = write_json StatusCreated (json_Marshal stored) ∧
     ContentType resp = "application/json").
Proof.
  simpl. destruct (create_served e r w) as [_ S]. simpl in S.
  destruct (create e r w) as [resp w']. simpl in *. split.
  - inversion S as [| |x finds err' HM HD Hc|x finds d' err' HM HD Hc
                   |x finds E x' stored HM HD Hc]; subst;
      intros h d InsertedID Hin.
    + by apply elem_of_nil in Hin.
    + by apply elem_of_nil in Hin.
    + by eapply checked_no_InsertOne in Hin.
    + eapply InsertOne_last in Hin; [|done]. discriminate.
    + eapply InsertOne_last in Hin; [|done]. injection Hin as <- <- <-.
      exists x, (stored_id x' w). by repeat split.
  - inversion S as [| | | |x finds E x' stored HM HD Hc Hconf Ecs Eresp Em];
      subst; simpl; try discriminate.
    intros _. exists x, (stored_id x' w), finds.
    destruct (sent_bson_Marshal e x' w) as [Eb Ei]. simpl in Eb, Ei.
    split; [done|]. split; [apply stored_id_nonzero|]. split; [done|].
    split; [done|].
    split; [intros h0 d0 res0; by eapply checked_no_InsertOne|].
    split; [clear; by destruct e|].
    split; [etrans; [|exact Ei]; by rewrite Eb|]. done.
Qed.

(** ** Errors of the lookups *)




(** ** Timestamps *)

Lemma Lookup_omitempty_id (id : ObjectID) (key : string) (d : document) :
  key ≠ "_id" → Lookup key (omitempty_id id ++ d) = Lookup key d.
Proof.
  intros Hk. unfold omitempty_id. destruct (ObjectID_IsZero id); [done|].
  cbn [app Lookup]. destruct (String.eqb_spec "_id" key); congruence.
Qed.

(** Claim C6, amended.  A document inserted by [createPatient],
    [createDoctor], [createAppointment] or [createDepartment] carries
    under [createdAt] the time at which the handler ran, whatever
    [createdAt] the request body had, and carries it when it is handed to
    [InsertOne].  A document inserted by [createUser] has no
    [createdAt]. *)
Theorem created_documents_timestamp
    (e : Endpoint) (r : Request (model e)) (w : World)
    (h : Handle) (d : document) (InsertedID : value) :
  CallInsertOne h d (inr InsertedID) ∈ issued w (create e r w).2 →
  Lookup "createdAt" d =
    match e with
    | users_ => None
    | _ => Some (VDateTime (NewDateTimeFromTime (clock w)))
    end.
Proof.
  destruct (create_served e r w) as [_ S]. simpl in S.
  destruct (create e r w) as [resp w']. simpl in *.
  inversion S as [| |x finds err' HM HD Hc|x finds d' err' HM HD Hc
                 |x finds E x' stored HM HD Hc]; subst; intros Hin.
  - by apply elem_of_nil in Hin.
  - by apply elem_of_nil in Hin.
  - by eapply checked_no_InsertOne in Hin.
  - eapply InsertOne_last in Hin; [|done]. discriminate.
  - eapply InsertOne_last in Hin; [|done]. injection Hin as <- <- <-.
    subst stored x' E.
    destruct e; simpl;
      unfold User.bson, Patient.bson, Doctor.bson, Appointment.bson,
        Department.bson; by rewrite Lookup_omitempty_id.
Qed.

(** ** Identifiers *)

Lemma getUsers_mongod {T} (g : Request T) (w : World) :
  mongod (getUsers g w).2 = mongod w.
Proof.
  unfold getUsers. destruct (negb _); [done|]. run.
  destruct (Find collection [] w) as [[err|cursor] w1] eqn:F;
    apply Find_inv in F as (Em & _); [done|].
  by destruct (Cursor_All cursor nil_slice).
Qed.

Lemma getPatients_mongod {T} (g : Request T) (w : World) :
  mongod (getPatients g w).2 = mongod w.
Proof.
  unfold getPatients. destruct (negb _); [done|]. run.
  destruct (Find patientCollection [] w) as [[err|cursor] w1] eqn:F;
    apply Find_inv in F as (Em & _); [done|].
  by destruct (Cursor_All cursor nil_slice).
Qed.

Lemma coll_set_coll (h h' : Handle) (c : Collection) (m : Mongod) :
  coll h (set_coll h' c m) = if decide (h = h') then c else coll h m.
Proof. by destruct h, h'. Qed.

(** Claim C9, amended.  The identifier under which a creation handler
    stores a record is the [ID] of the decoded request body when that is
    not zero, and the ObjectID generated at the insertion when it is zero.
    No handler changes or removes a stored document: after a creation
    request every collection starts with the documents it had, and the
    list handlers leave every collection as it is. *)
Theorem identifiers_and_append_only
    (e : Endpoint) (r : Request (model e)) (w : World) :
  let E := model_Entity e in
  let w' := (create e r w).2 in
  (∀ h d InsertedID,
     CallInsertOne h d (inr InsertedID) ∈ issued w w' →
     ∃ x, Decode r = inr x ∧
          InsertedID = VObjectID (stored_id x w) ∧
          Lookup "_id" d = Some InsertedID ∧
          d ∈ Docs (coll (handle e) (mongod w'))) ∧
  (∀ h, Docs (coll h (mongod w)) `prefix_of` Docs (coll h (mongod w'))) ∧
  (∀ T (g : Request T),
     mongod (getUsers g w).2 = mongod w ∧
     mongod (getPatients g w).2 = mongod w).
Proof.
  intros E w'. subst w'.
  split; [|split; [|by auto using @getUsers_mongod, @getPatients_mongod]].
  - destruct (create_served e r w) as [_ S]. simpl in S.
    destruct (create e r w) as [resp w']. simpl in *.
    inversion S as [| |x finds err' HM HD Hc|x finds d' err' HM HD Hc
                   |x finds E' x' stored HM HD Hc Ecs Eresp Em];
      subst; intros h d InsertedID Hin.
    + by apply elem_of_nil in Hin.
    + by apply elem_of_nil in Hin.
    + by eapply checked_no_InsertOne in Hin.
    + eapply InsertOne_last in Hin; [|done]. discriminate.
    + eapply InsertOne_last in Hin; [|done]. injection Hin as <- <- <-.
      exists x. split; [done|].
      assert (stored_id x' w = stored_id x w) as Eid.
      { unfold stored_id. subst x' E'. by rewrite ID_stamp. }
      split; [by f_equal|].
      destruct (sent_bson_Marshal e x' w) as [Eb Ei]. simpl in Eb, Ei.
      split; [etrans; [|exact Ei]; by rewrite Eb|].
      rewrite coll_set_coll, decide_True by done. simpl.
      apply elem_of_app. right. by left.
  - destruct (create_served e r w) as [_ S]. simpl in S.
    destruct (create e r w) as [resp w']. simpl in *.
    inversion S; subst; intros h; try done.
    rewrite coll_set_coll. destruct (decide _) as [->|]; [|done].
    simpl. by apply prefix_app_r.
Qed.

(** ** Listing *)

(** Claim C5.  A GET on /users/list or /patients/list against an empty
    collection, the round trip to the server completing, is answered 200
    with content type application/json; the body is the JSON value [null],
    which is not the empty array: the slice handed to [Cursor.All] is nil
    and stays nil. *)
Theorem list_empty_collection_null {T} (g : Request T) (w : World) :
  Method g = MethodGet →
  net w = [] ∨ (∃ rest, net w = None :: rest) →
  (Docs (users (mongod w)) = [] →
   (getUsers g w).1 = write_json StatusOK JNull) ∧
  (Docs (patients (mongod w)) = [] →
   (getPatients g w).1 = write_json StatusOK JNull) ∧
  write_json StatusOK JNull ≠ write_json StatusOK (JArray []).
Proof.
  intros HM Hnet. unfold getUsers, getPatients. rewrite HM. simpl. run.
  split; [|split; [|done]]; intros Hdocs.
  - destruct (Find collection [] w) as [[err|cursor] w1] eqn:F;
      apply Find_inv in F as (_ & _ & _ & _ & HF); simpl in *.
    + destruct HF as (msg & rest & _ & Hn). rewrite Hn in Hnet.
      by destruct Hnet as [|[? ?]].
    + subst cursor. by rewrite Hdocs.
  - destruct (Find patientCollection [] w) as [[err|cursor] w1] eqn:F;
      apply Find_inv in F as (_ & _ & _ & _ & HF); simpl in *.
    + destruct HF as (msg & rest & _ & Hn). rewrite Hn in Hnet.
      by destruct Hnet as [|[? ?]].
    + subst cursor. by rewrite Hdocs.
Qed.



(** ** Unique email *)

Lemma Lookup_email_stored (e : Endpoint) (x : model e) (now : Time)
    (id : ObjectID) :
  let E := model_Entity e in
  Lookup "email" (bson_Marshal (set_ID (stamp e x now) id)) =
  Lookup "email" (bson_Marshal x).
Proof.
  destruct e; simpl;
    unfold User.bson, Patient.bson, Doctor.bson, Appointment.bson,
      Department.bson; by rewrite !Lookup_omitempty_id.
Qed.

(** A creation request (appointments apart, which are validated first)
    whose email is that of a stored document, in a collection with a
    unique index on [email], is answered 500 with the message of the
    insertion error and stores nothing. *)
Theorem create_duplicate_email
    (e : Endpoint) (r : Request (model e)) (x : model e) (w : World)
    (other : document) :
  let E := model_Entity e in
  e ≠ appointments_ →
  Method r = MethodPost →
  Decode r = inr x →
  "email" ∈ Unique (coll (handle e) (mongod w)) →
  other ∈ Docs (coll (handle e) (mongod w)) →
  Lookup "email" other = Lookup "email" (bson_Marshal x) →
  ∃ err,
    (create e r w).1 = http_Error (Error err) StatusInternalServerError ∧
    ((∃ msg, err = Unavailable msg) ∨ (∃ key, err = DuplicateKey key)) ∧
    mongod (create e r w).2 = mongod w.
Proof.
  intros E He HM HD Hidx Hother Hemail.
  destruct (create_served e r w) as [_ S]. simpl in S.
  destruct (create e r w) as [resp w']. simpl in *.
  inversion S as [HM'|err HM' HD'|x0 finds err _ HD' Hc
                 |x0 finds d err _ HD' Hc Herr
                 |x0 finds E' x' stored _ HD' Hc Hconf]; subst.
  - done.
  - congruence.
  - destruct e; simpl in Hc; try done; by destruct Hc.
  - exists err. split; [done|]. split; [|done].
    destruct Herr as [?|(key & -> & _)]; eauto.
  - exfalso. rewrite HD in HD'. injection HD' as <-.
    unfold conflict in Hconf.
    eapply find_none in Hconf; [|right; by apply list_elem_of_In].
    simpl in Hconf. apply not_true_iff_false in Hconf. apply Hconf.
    apply existsb_exists. exists other. split; [by apply list_elem_of_In|].
    apply bool_decide_eq_true. unfold stored, x', E'.
    by rewrite (Lookup_email_stored e x).
Qed.

(** ** Runs on the sample data *)

(** A GET with an undecodable body on /appointments. *)
Lemma create_method_not_allowed_witness :
  let r : Request Appointment.t :=
    {| Method := "GET"; Body := inl (DecodeError "EOF") |} in
  Method r ≠ MethodPost ∧
  createAppointment r staffed =
    (http_Error "Method not allowed" StatusMethodNotAllowed, staffed).
Proof.
  split; [done|].
  apply (create_method_not_allowed appointments_). done.
Defined.

(** An appointment for patient 1 while no patient is stored. *)
Lemma createAppointment_unknown_reference_witness :
  let r := post (checkup 1 2) in
  (createAppointment r quiet).1 =
    http_Error "patient not found" StatusBadRequest ∧
  mongod (createAppointment r quiet).2 = mongod quiet.
Proof.
  intros r.
  destruct (createAppointment_unknown_reference r (checkup 1 2) quiet)
    as (_ & _ & _ & Em & _).
  - reflexivity.
  - reflexivity.
  - left. intros p Hp. simpl in Hp. by apply elem_of_nil in Hp.
  - split; [reflexivity | exact Em].
Defined.

(** An appointment posted with status "Cancelled" is stored as
    "Scheduled". *)
Lemma createAppointment_status_Scheduled_witness :
  let r := post (checkup 42 43) in
  Appointment.Status (checkup 42 43) = "Cancelled" ∧
  StatusCode (createAppointment r staffed).1 = StatusCreated ∧
  ∃ d, Docs (appointments (mongod (createAppointment r staffed).2)) = [d] ∧
       Lookup "status" d = Some (VString "Scheduled").
Proof.
  intros r. split; [reflexivity|]. split; [reflexivity|].
  destruct (createAppointment_status_Scheduled r staffed)
    as (input & id & _ & Hdocs & Hstatus & _).
  - reflexivity.
  - eexists. split; [exact Hdocs | exact Hstatus].
Defined.

(** A timeout and a duplicate email are both answered 500. *)
Lemma create_insert_error_witness :
  (createUser (post alice) (offline "context deadline exceeded" quiet)).1 =
    http_Error "context deadline exceeded" StatusInternalServerError ∧
  (createUser (post alice) registered).1 =
    http_Error "E11000 duplicate key error index: email"
      StatusInternalServerError.
Proof.
  split.
  - eapply (create_insert_error users_ (post alice)
              (offline "context deadline exceeded" quiet) collection
              _ (Unavailable "context deadline exceeded")).
    vm_compute. constructor.
  - eapply (create_insert_error users_ (post alice) registered collection
              _ (DuplicateKey "email")).
    vm_compute. constructor.
Defined.

(** [alice] is answered with her record and the generated identifier; an
    appointment posted as "Cancelled" for patient 42 and doctor 43 is
    answered with the stamped record under identifier 44, and that
    document is the one stored. *)
Lemma create_success_response_witness :
  (createUser (post alice) quiet).1 =
    write_json StatusCreated (User.json (User.mk 42 "A" "a@x.com")) ∧
  ∃ id, id ≠ NilObjectID ∧
    (createAppointment (post (checkup 42 43)) staffed).1 =
      write_json StatusCreated
        (Appointment.json
           (Appointment.mk id 42 43 1704067200000000000 "Scheduled"
              "checkup" (clock staffed))) ∧
    Docs (appointments
            (mongod (createAppointment (post (checkup 42 43)) staffed).2)) =
      [Appointment.bson
         (Appointment.mk id 42 43 1704067200000000000 "Scheduled"
            "checkup" (clock staffed))].
Proof.
  split.
  - destruct (create_success_response users_ (post alice) quiet)
      as [Hcall _].
    destruct (Hcall collection
                [("_id", VObjectID 42); ("name", VString "A");
                 ("email", VString "a@x.com")] (VObjectID 42))
      as (x & id & _ & _ & _ & _ & _ & _ & _).
    + vm_compute. constructor.
    + reflexivity.
  - destruct (create_success_response appointments_ (post (checkup 42 43))
                staffed) as [_ H201].
    destruct (H201 eq_refl)
      as (x & id & finds & HD & Hnz & _ & _ & _ & Hdocs & _ & Hresp & _).
    injection HD as <-. exists id. split; [exact Hnz|].
    split; [exact Hresp | exact Hdocs].
Defined.


(** Both list handlers on the empty store. *)
Lemma list_empty_collection_null_witness :
  (getUsers get quiet).1 = write_json StatusOK JNull ∧
  (getPatients get quiet).1 = write_json StatusOK JNull.
Proof.
  destruct (list_empty_collection_null get quiet) as (Hu & Hp & _).
  - reflexivity.
  - by left.
  - split; [by apply Hu | by apply Hp].
Defined.

(** Claim C6 as it is stated fails for users: the document that
    [createUser] inserts has no [createdAt]. *)
Lemma createUser_not_timestamped : ¬ timestamped users_ (post alice) quiet.
Proof.
  intros H.
  specialize (H collection
    [("_id", VObjectID 42); ("name", VString "A"); ("email", VString "a@x.com")]
    (VObjectID 42)).
  assert (Lookup "createdAt"
    [("_id", VObjectID 42%N); ("name", VString "A");
     ("email", VString "a@x.com")] = None) as E by reflexivity.
  rewrite E in H. discriminate H. vm_compute. constructor.
Qed.

(** The stored patient carries the clock of [quiet], cut to
    milliseconds. *)
Lemma created_documents_timestamp_witness :
  ∃ d, d ∈ Docs (patients (mongod (createPatient (post patientA) quiet).2)) ∧
       Lookup "createdAt" d = Some (VDateTime 1704067200123).
Proof.
  eexists. split.
  - vm_compute. constructor.
  - apply (created_documents_timestamp patients_ (post patientA) quiet
             patientCollection _ (VObjectID 42)).
    vm_compute. constructor.
Defined.

(** Claim C9 as it is stated fails: a request body that carries an [id]
    is stored under that identifier, not under a generated one. *)
Lemma createUser_client_identifier :
  ¬ store_assigned users_ (post mallory) quiet.
Proof.
  intros H.
  specialize (H collection
    [("_id", VObjectID 7); ("name", VString "M"); ("email", VString "m@x.com")]
    (VObjectID 7)).
  assert (VObjectID 7 ≠ VObjectID (N.succ (lastID quiet))) as NE by done.
  apply NE, H. vm_compute. constructor.
Qed.

(** [mallory] is stored under the identifier of her request body. *)
Lemma identifiers_and_append_only_witness :
  ∃ d, Docs (users (mongod (createUser (post mallory) quiet).2)) = [d] ∧
       Lookup "_id" d = Some (VObjectID (User.ID mallory)).
Proof.
  destruct (identifiers_and_append_only users_ (post mallory) quiet)
    as (Hid & _ & _).
  destruct (Hid collection
    [("_id", VObjectID 7); ("name", VString "M"); ("email", VString "m@x.com")]
    (VObjectID 7)) as (x & _ & _ & Hl & _).
  - vm_compute. constructor.
  - eexists. split; [reflexivity | exact Hl].
Defined.

(** The example of the specification: a patient is registered, then an
    appointment that names an unknown doctor is refused and not stored. *)
Example appointment_with_unknown_doctor :
  let w1 := (createPatient (post patientA) quiet).2 in
  let r := post (checkup 42 99) in
  StatusCode (createPatient (post patientA) quiet).1 = 201 ∧
  (createAppointment r w1).1 = http_Error "doctor not found" 400 ∧
  Docs (appointments (mongod (createAppointment r w1).2)) = [].
Proof. by vm_compute. Qed.


(** A second [alice] is refused. *)
Lemma create_duplicate_email_witness :
  ∃ err, (createUser (post alice) registered).1 =
           http_Error (Error err) StatusInternalServerError ∧
         mongod (createUser (post alice) registered).2 = mongod registered.
Proof.
  destruct (create_duplicate_email users_ (post alice) alice registered
              [("_id", VObjectID 42); ("name", VString "A");
               ("email", VString "a@x.com")])
    as (err & Hresp & _ & Hm).
  - done.
  - reflexivity.
  - reflexivity.
  - vm_compute. constructor.
  - vm_compute. constructor.
  - reflexivity.
  - exists err. split; [exact Hresp | exact Hm].
Defined.


(** ** Stored documents read back *)

(** Decoding the document of a record gives the record back, its times cut
    to the millisecond (a [User] has no time and comes back as it was).
    In particular a zero [ID], which is left out of the document, reads
    back as zero. *)
Theorem bson_round_trip (e : Endpoint) (x : model e) :
  let E := model_Entity e in
  bson_Unmarshal (bson_Marshal x) = inr (as_stored e x).
Proof.
  destruct e; destruct x as [id]; simpl;
    unfold User.bson, User.of_bson, Patient.bson, Patient.of_bson,
      Doctor.bson, Doctor.of_bson, Appointment.bson, Appointment.of_bson,
      Department.bson, Department.of_bson, omitempty_id, ObjectID_IsZero,
      NilObjectID; simpl;
    destruct (N.eqb id 0) eqn:Hz;
    try (apply N.eqb_eq in Hz; subst id); reflexivity.
Qed.

(** ** Round trips that complete *)

Lemma reachable_next (w : World) :
  reachable w → net w = [] ∨ (∃ rest, net w = None :: rest).
Proof.
  unfold reachable. destruct (net w) as [|o rest]; [by left|].
  intros [-> _]%Forall_cons. right. by exists rest.
Qed.

Lemma roundtrip_reachable (w : World) :
  reachable w →
  ∃ w', roundtrip w = (None, w') ∧ mongod w' = mongod w ∧
        clock w' = clock w ∧ lastID w' = lastID w ∧ calls w' = calls w ∧
        reachable w'.
Proof.
  unfold reachable, roundtrip. destruct w as [m n c l cs]; simpl.
  destruct n as [|o rest]; intros Hn.
  - eexists. by repeat split.
  - apply Forall_cons in Hn as [-> Hn]. eexists. by repeat split.
Qed.




(** ** What a creation request does to the store *)

(** A creation handler answers 201, 400, 405 or 500.  It changes the
    server only when it answers 201, and then by appending one document,
    which collides with no stored one on a unique key, to its own
    collection; the other collections and the indexes stay as they
    are. *)
Theorem create_store_effect
    (e : Endpoint) (r : Request (model e)) (w : World) :
  let resp := (create e r w).1 in
  let w' := (create e r w).2 in
  let c := coll (handle e) (mongod w) in
  StatusCode resp ∈ [201; 400; 405; 500] ∧
  (StatusCode resp ≠ 201 → mongod w' = mongod w) ∧
  (StatusCode resp = 201 →
   ∃ d, conflict c d = None ∧
        mongod w' =
          set_coll (handle e) (Build_Collection (Docs c ++ [d]) (Unique c))
            (mongod w)).
Proof.
  simpl. destruct (create_served e r w) as [_ S]. simpl in S.
  destruct (create e r w) as [resp w']. simpl in *.
  inversion S as [| | | |x finds E x' stored HM HD Hc Hconf]; subst; simpl.
  - split; [apply list_elem_of_In; vm_compute; tauto|]. by split.
  - split; [apply list_elem_of_In; vm_compute; tauto|]. by split.
  - split; [apply list_elem_of_In; vm_compute; tauto|]. by split.
  - split; [apply list_elem_of_In; vm_compute; tauto|]. by split.
  - split; [apply list_elem_of_In; vm_compute; tauto|]. split; [done|]. intros _. by eexists.
Qed.

(** A POST whose body does not decode is answered 400 with the message of
    the decoder by every creation handler, and leaves the world as it
    was: no driver call is made. *)
Theorem create_undecodable_body
    (e : Endpoint) (r : Request (model e)) (w : World) (err : error) :
  Method r = MethodPost →
  Decode r = inl err →
  create e r w = (http_Error (Error err) StatusBadRequest, w).
Proof.
  intros HM HD. rewrite create_pipeline. unfold pipeline.
  rewrite HM, HD. done.
Qed.

(** ** Creation requests that go through *)




(** ** Errors of the list handlers *)

Lemma Find_unreachable (h : Handle) (filter : document) (w : World)
    (msg : string) (rest : list (option string)) :
  net w = Some msg :: rest → (Find h filter w).1 = inl (Unavailable msg).
Proof.
  unfold Find, roundtrip, log, server. run.
  destruct w as [m n c l cs]; simpl. by intros ->.
Qed.

(** The list handlers answer 405 to a method other than GET without a
    driver call, leaving the world as it was, and 500 with the message of
    the driver when the round trip of [Find] fails. *)
Theorem list_handlers_errors {T} (g : Request T) (w : World) :
  (Method g ≠ MethodGet →
   getUsers g w =
     (http_Error "Method not allowed" StatusMethodNotAllowed, w) ∧
   getPatients g w =
     (http_Error "Method not allowed" StatusMethodNotAllowed, w)) ∧
  (Method g = MethodGet →
   ∀ msg rest, net w = Some msg :: rest →
     (getUsers g w).1 = http_Error msg StatusInternalServerError ∧
     (getPatients g w).1 = http_Error msg StatusInternalServerError).
Proof.
  unfold getUsers, getPatients. split.
  - intros HM. by destruct (String.eqb_spec (Method g) MethodGet).
  - intros HM msg rest Hn. rewrite HM. simpl. run.
    pose proof (Find_unreachable collection [] w msg rest Hn) as Fu.
    pose proof (Find_unreachable patientCollection [] w msg rest Hn) as Fp.
    destruct (Find collection [] w) as [cu wu].
    destruct (Find patientCollection [] w) as [cp wp].
    simpl in *. by subst.
Qed.

(** ** Creating, then listing *)








(** ** Invariants of the store under any sequence of requests *)

Lemma serve_step (q : request) (w : World) :
  mongod (serve q w).2 = mongod w ∨
  ∃ (e : Endpoint) (x : model e) (finds : list Call),
    let E := model_Entity e in
    let d := bson_Marshal (set_ID x (stored_id x w)) in
    let c := coll (handle e) (mongod w) in
    checked e x (mongod w) finds None ∧
    conflict c d = None ∧
    mongod (serve q w).2 =
      set_coll (handle e) (Build_Collection (Docs c ++ [d]) (Unique c))
        (mongod w).
Proof.
  assert (∀ e0 r, mongod (create e0 r w).2 = mongod w ∨
    ∃ (e : Endpoint) (x : model e) (finds : list Call),
      let E := model_Entity e in
      let d := bson_Marshal (set_ID x (stored_id x w)) in
      let c := coll (handle e) (mongod w) in
      checked e x (mongod w) finds None ∧
      conflict c d = None ∧
      mongod (create e0 r w).2 =
        set_coll (handle e) (Build_Collection (Docs c ++ [d]) (Unique c))
          (mongod w)) as Hcreate.
  { intros e r. destruct (create_served e r w) as [_ S]. simpl in S.
    destruct (create e r w) as [resp w']. simpl in *.
    inversion S as [| | | |x finds E x' stored HM HD Hc Hconf Ecs Eresp Em];
      subst; auto.
    right. by exists e, x', finds. }
  destruct q as [r|r|r|r|r|r|r]; simpl.
  - apply (Hcreate users_).
  - left. apply getUsers_mongod.
  - apply (Hcreate patients_).
  - left. apply getPatients_mongod.
  - apply (Hcreate doctors_).
  - apply (Hcreate appointments_).
  - apply (Hcreate departments_).
Qed.

Lemma serve_all_cons (q : request) (qs : list request) (w : World) :
  (serve_all (q :: qs) w).2 = (serve_all qs (serve q w).2).2.
Proof.
  simpl. run. destruct (serve q w) as [resp w1]. simpl.
  by destruct (serve_all qs w1).
Qed.

Lemma serve_all_invariant (I : Mongod → Prop) :
  (∀ q w, I (mongod w) → I (mongod (serve q w).2)) →
  ∀ qs w, I (mongod w) → I (mongod (serve_all qs w).2).
Proof.
  intros Hstep qs. induction qs as [|q qs IH]; intros w HI; [done|].
  rewrite serve_all_cons. by apply IH, Hstep.
Qed.




Lemma serve_references_resolve (q : request) (w : World) :
  references_resolve (mongod w) → references_resolve (mongod (serve q w).2).
Proof.
  intros HI. destruct (serve_step q w) as [->|(e & x & finds & H)]; [done|].
  simpl in H. destruct H as (Hc & _ & ->).
  destruct e; simpl in *; try exact HI.
  - intros a Ha. destruct (HI a Ha) as [(id & p & E1 & Hp & E2) Hd].
    split; [|done]. exists id, p. repeat split; try done.
    apply elem_of_app. by left.
  - intros a Ha. destruct (HI a Ha) as [Hp (id & d & E1 & Hd & E2)].
    split; [done|]. exists id, d. repeat split; try done.
    apply elem_of_app. by left.
  - intros a [Ha|Ha%list_elem_of_singleton]%elem_of_app; [by apply HI|].
    subst a. inversion Hc as [| |p ? d ? Hp Ep ? Hd Ed]; subst.
    unfold Appointment.bson. rewrite !Lookup_omitempty_id by done. simpl.
    split; eauto 10.
Qed.

Lemma conflict_None_fresh (c : Collection) (d : document) (key : string) :
  conflict c d = None → key ∈ "_id" :: Unique c →
  Lookup key d ∉ Lookup key <$> Docs c.
Proof.
  unfold conflict. intros Hf Hk Hin.
  eapply find_none in Hf; [|by apply list_elem_of_In].
  apply list_elem_of_fmap in Hin as (e & Heq & He).
  apply not_true_iff_false in Hf. apply Hf, existsb_exists.
  exists e. split; [by apply list_elem_of_In|]. by apply bool_decide_eq_true.
Qed.

Lemma serve_keys_unique (q : request) (w : World) :
  keys_unique (mongod w) → keys_unique (mongod (serve q w).2).
Proof.
  intros HI. destruct (serve_step q w) as [->|(e & x & finds & H)]; [done|].
  simpl in H. destruct H as (_ & Hconf & ->).
  intros h key. rewrite coll_set_coll.
  destruct (decide (h = handle e)) as [->|]; [|apply HI]. simpl.
  intros Hk. rewrite fmap_app. apply NoDup_app. split; [by apply HI|].
  split; [|apply NoDup_singleton].
  intros v Hv Ev%list_elem_of_singleton. subst v.
  by eapply conflict_None_fresh in Hconf.
Qed.

Lemma serve_append_only (q : request) (w : World) (h : Handle) :
  Docs (coll h (mongod w)) `prefix_of` Docs (coll h (mongod (serve q w).2)) ∧
  Unique (coll h (mongod (serve q w).2)) = Unique (coll h (mongod w)).
Proof.
  destruct (serve_step q w) as [->|(e & x & finds & H)]; [done|].
  simpl in H. destruct H as (_ & _ & ->). rewrite coll_set_coll.
  destruct (decide (h = handle e)) as [->|]; [|done]. simpl.
  split; [by apply prefix_app_r | done].
Qed.

(** Referential integrity is kept: when every stored appointment names a
    stored patient and a stored doctor, it is so again after any sequence
    of requests to the seven routes. *)
Theorem serve_all_references_resolve (qs : list request) (w : World) :
  references_resolve (mongod w) →
  references_resolve (mongod (serve_all qs w).2).
Proof.
  revert w. induction qs as [|q qs IH]; intros w HI; [exact HI|].
  rewrite serve_all_cons. apply IH. by apply serve_references_resolve.
Qed.

(** Uniqueness is kept: when no two documents of a collection agree on
    [_id] or on a key with a unique index, it is so again after any
    sequence of requests; in particular two stored patients never share
    an email once the index on [email] exists. *)
Theorem serve_all_keys_unique (qs : list request) (w : World) :
  keys_unique (mongod w) →
  keys_unique (mongod (serve_all qs w).2) ∧
  ("email" ∈ Unique (patients (mongod w)) →
   NoDup (Lookup "email" <$> Docs (patients (mongod (serve_all qs w).2)))).
Proof.
  intros HI.
  assert (keys_unique (mongod (serve_all qs w).2)) as HI'.
  { revert w HI. induction qs as [|q qs IH]; intros w HI; [exact HI|].
    rewrite serve_all_cons. apply IH. by apply serve_keys_unique. }
  split; [exact HI'|]. intros Hidx.
  apply (HI' patientCollection). right.
  assert (∀ qs w, Unique (patients (mongod (serve_all qs w).2)) =
                  Unique (patients (mongod w))) as HU.
  { clear. intros qs. induction qs as [|q qs IH]; intros w; [done|].
    rewrite serve_all_cons, IH.
    apply (serve_append_only q w patientCollection). }
  simpl. by rewrite HU.
Qed.

(** The store is append-only under any sequence of requests: every
    collection still starts with the documents it had, in their order and
    unchanged, and its indexes are the same. *)
Theorem serve_all_append_only (qs : list request) (w : World) (h : Handle) :
  Docs (coll h (mongod w)) `prefix_of`
    Docs (coll h (mongod (serve_all qs w).2)) ∧
  Unique (coll h (mongod (serve_all qs w).2)) = Unique (coll h (mongod w)).
Proof.
  revert w. induction qs as [|q qs IH]; intros w; [done|].
  rewrite serve_all_cons.
  destruct (IH (serve q w).2) as [Hp Hu].
  destruct (serve_append_only q w h) as [Hp1 Hu1].
  split; [by etrans | congruence].
Qed.


(** ** Startup *)

Lemma Indexes_CreateOne_inv (h : Handle) (key : string) (w w' : World)
    (err : option error) :
  Indexes_CreateOne h key w = (err, w') →
  calls w' = calls w ∧
  (∀ h', Docs (coll h' (mongod w')) = Docs (coll h' (mongod w))) ∧
  (∀ h', h' ≠ h → Unique (coll h' (mongod w')) = Unique (coll h' (mongod w))) ∧
  (reachable w → reachable w') ∧
  match err with
  | Some e =>
      mongod w' = mongod w ∧
      ((∃ msg rest, e = Unavailable msg ∧ net w = Some msg :: rest)
       ∨ (e = DuplicateKey key ∧ (net w = [] ∨ ∃ rest, net w = None :: rest) ∧
          ¬ NoDup (Lookup key <$> Docs (coll h (mongod w)))))
  | None =>
      key ∈ Unique (coll h (mongod w')) ∧
      NoDup (Lookup key <$> Docs (coll h (mongod w))) ∧
      (∀ k, k ∈ Unique (coll h (mongod w)) → k ∈ Unique (coll h (mongod w'))) ∧
      (∀ k, k ∈ Unique (coll h (mongod w')) →
            k = key ∨ k ∈ Unique (coll h (mongod w)))
  end.
Proof.
  unfold Indexes_CreateOne, server. run.
  destruct (roundtrip w) as [[e|] w1] eqn:R.
  - pose proof R as R'.
    apply roundtrip_inv in R as (Em & Ec & El & Ecs & msg & rest & -> & Hn).
    intros [= <- <-]. rewrite Em. repeat split; try done.
    + intros Hr. unfold reachable in Hr. rewrite Hn in Hr.
      by apply Forall_cons in Hr as [? _].
    + left. eauto.
  - pose proof R as R'.
    apply roundtrip_inv in R as (Em & Ec & El & Ecs & Hn).
    assert (reachable w → reachable w1) as Hr1.
    { intros Hr. destruct (roundtrip_reachable w Hr) as (w2 & R2 & ? & ? & ? & ? & ?).
      congruence. }
    destruct w1 as [m1 n1 c1 l1 cs1]; simpl in *. subst m1.
    destruct (bool_decide (NoDup _)) eqn:Hnd.
    + apply bool_decide_eq_true in Hnd. intros [= <- <-]; simpl.
      split; [done|]. split; [intros h'; rewrite coll_set_coll; by case_decide; subst|].
      split; [intros h' Hne; rewrite coll_set_coll; by rewrite decide_False|].
      split; [done|]. rewrite coll_set_coll, decide_True by done. simpl.
      destruct (bool_decide (key ∈ _)) eqn:Hk.
      * apply bool_decide_eq_true in Hk. repeat split; auto.
      * repeat split; try done.
        -- apply elem_of_app. right. by left.
        -- intros k Hin. apply elem_of_app. by left.
        -- intros k [Hin|Hin%list_elem_of_singleton]%elem_of_app; auto.
    + apply bool_decide_eq_false in Hnd. intros [= <- <-]; simpl.
      repeat split; try done. right. done.
Qed.

(** [init] of the hospital service stops the process only when
    [mongo.Connect] or the ping fails; an index that cannot be created is
    logged and the server starts.  It changes no document and makes no
    lookup or insert.  When nothing was logged, the patients and the
    doctors carry the unique index on [email] and no two stored ones share
    an email. *)
Theorem Hospital_init_outcome (connect : option error) (w : World) :
  let w' := (Hospital.init connect w).2 in
  (∀ h, Docs (coll h (mongod w')) = Docs (coll h (mongod w))) ∧
  calls w' = calls w ∧
  match (Hospital.init connect w).1 with
  | Fatal err =>
      mongod w' = mongod w ∧
      (connect = Some err
       ∨ (connect = None ∧
          ∃ msg rest, err = Unavailable msg ∧ net w = Some msg :: rest))
  | Up log =>
      connect = None ∧
      (log = [] →
       ∀ h, h = patientCollection ∨ h = doctorCollection →
         "email" ∈ Unique (coll h (mongod w')) ∧
         NoDup (Lookup "email" <$> Docs (coll h (mongod w'))))
  end.
Proof.
  unfold Hospital.init, Hospital.createIndexes, Ping.
  destruct connect as [err|]; simpl; [by auto|]. run.
  destruct (roundtrip w) as [[err|] w1] eqn:R;
    apply roundtrip_inv in R as (Em1 & _ & _ & Ecs1 & Hn1); simpl.
  { rewrite Em1. repeat split; try done. right.
    destruct Hn1 as (msg & rest & -> & Hn1). eauto 10. }
  destruct (Indexes_CreateOne patientCollection "email" w1)
    as [e2 w2] eqn:I2.
  apply Indexes_CreateOne_inv in I2 as (Ecs2 & Ed2 & Eu2 & _ & H2).
  destruct (Indexes_CreateOne doctorCollection "email" w2)
    as [e3 w3] eqn:I3.
  apply Indexes_CreateOne_inv in I3 as (Ecs3 & Ed3 & Eu3 & _ & H3).
  simpl. split; [intros h; by rewrite Ed3, Ed2, Em1|].
  split; [congruence|]. split; [done|].
  destruct e2 as [e2|]; [done|]. destruct e3 as [e3|]; [done|].
  intros _ h [-> | ->].
  - destruct H2 as (Hk & Hnd & _). rewrite Ed3, Ed2.
    rewrite Eu3 by done. done.
  - destruct H3 as (Hk & Hnd & _). by rewrite Ed3.
Qed.

(** When two stored patients share an email and the index does not exist
    yet, [init] of the hospital service (every round trip completing)
    logs the duplicate-key error and starts the server without the index
    on the patients' [email]: the requests that follow are served without
    that uniqueness check. *)
Theorem Hospital_init_duplicate_emails (w : World) :
  let w' := (Hospital.init None w).2 in
  reachable w →
  ¬ NoDup (Lookup "email" <$> Docs (patients (mongod w))) →
  "email" ∉ Unique (patients (mongod w)) →
  (∃ log, (Hospital.init None w).1 =
            Up (("Error creating patient index: " ++
                 Error (DuplicateKey "email"))%string :: log)) ∧
  "email" ∉ Unique (patients (mongod w')).
Proof.
  unfold Hospital.init, Hospital.createIndexes, Ping. simpl.
  intros Hr Hdup Hidx. run.
  destruct (roundtrip_reachable w Hr) as (w1 & R & Em1 & _ & _ & _ & Hr1).
  rewrite R.
  destruct (Indexes_CreateOne patientCollection "email" w1)
    as [e2 w2] eqn:I2.
  apply Indexes_CreateOne_inv in I2 as (_ & _ & _ & Hr2 & H2).
  destruct (Indexes_CreateOne doctorCollection "email" w2)
    as [e3 w3] eqn:I3.
  apply Indexes_CreateOne_inv in I3 as (_ & _ & Eu3 & _ & _).
  simpl. rewrite Em1 in H2.
  destruct e2 as [e2|].
  - destruct H2 as [Em2 [(msg & rest & _ & Hn)|(-> & _ & _)]].
    + apply reachable_next in Hr1. rewrite Hn in Hr1.
      by destruct Hr1 as [|[? ?]].
    + split; [by eexists|].
      specialize (Eu3 patientCollection). simpl in Eu3.
      rewrite Eu3 by done. by rewrite Em2.
  - by destruct H2 as (_ & Hnd & _).
Qed.

(** [init] of the user registry stops the process when [mongo.Connect],
    the ping or the creation of the index fails, and then has changed
    nothing.  When it lets the server start, the users carry the unique
    index on [email] and no two stored users share an email.  It changes
    no document in either case. *)
Theorem UserService_init_outcome (connect : option error) (w : World) :
  let w' := (UserService.init connect w).2 in
  (∀ h, Docs (coll h (mongod w')) = Docs (coll h (mongod w))) ∧
  calls w' = calls w ∧
  match (UserService.init connect w).1 with
  | Fatal err =>
      mongod w' = mongod w ∧
      (connect = Some err
       ∨ (connect = None ∧
          ((∃ msg, err = Unavailable msg)
           ∨ (err = DuplicateKey "email" ∧
              ¬ NoDup (Lookup "email" <$> Docs (users (mongod w)))))))
  | Up log =>
      log = [] ∧ connect = None ∧
      "email" ∈ Unique (users (mongod w')) ∧
      NoDup (Lookup "email" <$> Docs (users (mongod w')))
  end.
Proof.
  unfold UserService.init, Ping.
  destruct connect as [err|]; simpl; [by auto|]. run.
  destruct (roundtrip w) as [[err|] w1] eqn:R;
    apply roundtrip_inv in R as (Em1 & _ & _ & Ecs1 & Hn1); simpl.
  { rewrite Em1. repeat split; try done. right.
    destruct Hn1 as (msg & rest & -> & Hn1). eauto 10. }
  destruct (Indexes_CreateOne collection "email" w1) as [e2 w2] eqn:I2.
  apply Indexes_CreateOne_inv in I2 as (Ecs2 & Ed2 & Eu2 & _ & H2).
  destruct e2 as [e2|]; simpl.
  - destruct H2 as [Em2 H2]. rewrite Em2, Em1.
    repeat split; try congruence. right. split; [done|].
    destruct H2 as [(msg & rest & -> & _)|(-> & _ & Hnd)]; [eauto|].
    right. by rewrite <- Em1.
  - destruct H2 as (Hk & Hnd & _).
    split; [intros h; by rewrite Ed2, Em1|].
    split; [congruence|]. repeat split; try done.
    specialize (Ed2 collection). simpl in Ed2. by rewrite Ed2.
Qed.

(** Once the user registry has started, no two stored users ever share an
    email: [init] let the server start on a store whose [_id]s and indexed
    keys were unique, and any sequence of requests followed. *)
Theorem UserService_emails_stay_distinct
    (connect : option error) (w : World) (qs : list request) (log : list string) :
  (UserService.init connect w).1 = Up log →
  keys_unique (mongod w) →
  NoDup (Lookup "email" <$>
           Docs (users (mongod (serve_all qs (UserService.init connect w).2).2))).
Proof.
  intros Hup HI.
  assert (keys_unique (mongod (UserService.init connect w).2) ∧
          "email" ∈ Unique (users (mongod (UserService.init connect w).2)))
    as [HI' Hidx].
  { revert Hup. unfold UserService.init, Ping.
    destruct connect as [err|]; simpl; [done|]. run.
    destruct (roundtrip w) as [[err|] w1] eqn:R;
      apply roundtrip_inv in R as (Em1 & _ & _ & _ & _); simpl; [done|].
    destruct (Indexes_CreateOne collection "email" w1) as [e2 w2] eqn:I2.
    apply Indexes_CreateOne_inv in I2 as (_ & Ed2 & Eu2 & _ & H2).
    destruct e2 as [e2|]; simpl; [done|]. intros _.
    destruct H2 as (Hk & Hnd & Hmono & Hconv). split; [|done].
    intros h key Hkey. rewrite Ed2, Em1.
    destruct (decide (h = collection)) as [->|Hne].
    - destruct (decide (key = "email")) as [->|Hkne];
        [by rewrite <- Em1|].
      apply HI. apply elem_of_cons in Hkey as [->|Hkey]; [by left|].
      right. apply Hconv in Hkey as [->|Hkey]; [done|].
      by rewrite <- Em1.
    - apply HI. rewrite (Eu2 h Hne), Em1 in Hkey. done. }
  pose proof (serve_all_invariant keys_unique serve_keys_unique qs _ HI')
    as HI''.
  apply (HI'' collection). right.
  assert (∀ qs w, Unique (users (mongod (serve_all qs w).2)) =
                  Unique (users (mongod w))) as HU.
  { clear. intros qs. induction qs as [|q qs IH]; intros w; [done|].
    rewrite serve_all_cons, IH. apply (serve_append_only q w collection). }
  simpl. by rewrite HU.
Qed.

(** ** Further runs on the sample data *)

(** A POST of a body that is not JSON. *)
Lemma create_undecodable_body_witness :
  let r : Request Patient.t :=
    {| Method := "POST";
       Body := inl (DecodeError "invalid character 'x'") |} in
  createPatient r staffed =
    (http_Error "invalid character 'x'" StatusBadRequest, staffed).
Proof.
  intros r.
  apply (create_undecodable_body patients_ r staffed
           (DecodeError "invalid character 'x'")); reflexivity.
Defined.

(** The list of the users while the server cannot be reached. *)
Lemma list_handlers_errors_witness :
  (getUsers get (offline "context deadline exceeded" registered)).1 =
    http_Error "context deadline exceeded" StatusInternalServerError.
Proof.
  destruct (list_handlers_errors get
              (offline "context deadline exceeded" registered))
    as (_ & Hnet).
  by destruct (Hnet eq_refl "context deadline exceeded" [] eq_refl).
Defined.




(** Staff, an appointment and a refused appointment on the empty store. *)
Lemma serve_all_references_resolve_witness :
  references_resolve
    (mongod (serve_all
               [patients_request (post patientA);
                doctors_request (post doctorB);
                appointments_request (post (checkup 42 43));
                appointments_request (post (checkup 42 99))] quiet).2).
Proof.
  apply serve_all_references_resolve.
  intros a Ha. simpl in Ha. by apply elem_of_nil in Ha.
Defined.

(** [alice] posted twice to the empty registry. *)
Lemma serve_all_keys_unique_witness :
  keys_unique
    (mongod (serve_all [users_request (post alice);
                        users_request (post alice)] quiet).2).
Proof.
  apply serve_all_keys_unique.
  intros h key _. destruct h; simpl; apply NoDup_nil_2.
Defined.


(** The hospital service starts on [legacy] without the patients'
    index. *)
Lemma Hospital_init_duplicate_emails_witness :
  (Hospital.init None legacy).1 =
    Up ["Error creating patient index: E11000 duplicate key error index: email"] ∧
  Unique (patients (mongod (Hospital.init None legacy).2)) = [].
Proof.
  destruct (Hospital_init_duplicate_emails legacy) as [_ _].
  - unfold reachable. by vm_compute.
  - intros Hnd. vm_compute in Hnd.
    apply NoDup_cons in Hnd as [Hnin _]. apply Hnin. by left.
  - simpl. apply not_elem_of_nil.
  - by vm_compute.
Defined.

(** The registry starts on the empty store; [alice] posted twice is stored
    once. *)
Lemma UserService_emails_stay_distinct_witness :
  NoDup (Lookup "email" <$>
           Docs (users (mongod
             (serve_all [users_request (post alice);
                         users_request (post alice)]
                (UserService.init None quiet).2).2))).
Proof.
  apply (UserService_emails_stay_distinct None quiet _ []).
  - by vm_compute.
  - intros h key _. destruct h; simpl; apply NoDup_nil_2.
Defined.


(** A stored patient without [createdAt] is listed with the zero time,
    and a stored user whose [_id] is the hexadecimal text of an ObjectID
    with that ObjectID. *)
Example list_foreign_documents :
  let w :=
    Build_World
      (Build_Mongod
         (Build_Collection
            [[("_id", VString "0000000000000000000000ff");
              ("name", VString "A")]] [])
         (Build_Collection [[("_id", VObjectID 1); ("name", VString "A")]] [])
         (Build_Collection [] []) (Build_Collection [] [])
         (Build_Collection [] []))
      [] 0 1 [] in
  (getUsers get w).1 =
    write_json StatusOK (JArray [User.json (User.mk 255 "A" "")]) ∧
  (getPatients get w).1 =
    write_json StatusOK
      (JArray [Patient.json (Patient.mk 1 "A" "" 0 "" "" "" zero_Time)]).
Proof. by vm_compute. Qed.
